(** * Survey CSV to Markdown converter: row classification, section assembly
      and table rendering of [survey_csv_to_markdown.py].

    Conventions of the embedding.

    - A Python [str] is a Stdlib [string].  The operations whose behaviour
      Python takes from the Unicode tables ([str.strip], [str.lower],
      [str.title], the regex class [\d]) are given their behaviour on the
      ASCII range; a character above 127 is neither white space, nor cased,
      nor a digit.
    - A cell of the data frame is represented by the text [str(cell)] that
      every function of the source takes of it before looking at it, so a
      missing value (a float NaN) is the cell ["nan"].
    - A data frame is its list of column labels and its list of rows, with
      the default positional index (the labels [iterrows] yields are the
      positions [iloc] takes). *)

From Stdlib Require Import Bool Arith List Sorted Lia Ascii String.
From Stdlib Require Import Numbers.DecimalString.
Import ListNotations.
Open Scope list_scope.
Open Scope string_scope.

(** ** Python strings *)

Module PyStr.

Definition nl : string := String "010"%char "".

(** [str.isspace] on one ASCII character: TAB, LF, VT, FF, CR, the four
    separators FS GS RS US, and the space. *)
Definition isspace (c : ascii) : bool :=
  let n := nat_of_ascii c in
  (Nat.leb 9 n && Nat.leb n 13) || (Nat.leb 28 n && Nat.leb n 32).

Definition isdigit (c : ascii) : bool :=
  let n := nat_of_ascii c in Nat.leb 48 n && Nat.leb n 57.

Definition isupper (c : ascii) : bool :=
  let n := nat_of_ascii c in Nat.leb 65 n && Nat.leb n 90.

Definition islower (c : ascii) : bool :=
  let n := nat_of_ascii c in Nat.leb 97 n && Nat.leb n 122.

Definition iscased (c : ascii) : bool := isupper c || islower c.

Definition lower_char (c : ascii) : ascii :=
  if isupper c then ascii_of_nat (nat_of_ascii c + 32) else c.

Definition upper_char (c : ascii) : ascii :=
  if islower c then ascii_of_nat (nat_of_ascii c - 32) else c.

(** [bool(s)]: a string is true when it is not empty. *)
Definition truthy (s : string) : bool :=
  match s with EmptyString => false | String _ _ => true end.

Fixpoint lstrip (s : string) : string :=
  match s with
  | EmptyString => EmptyString
  | String c t => if isspace c then lstrip t else s
  end.

Fixpoint rstrip (s : string) : string :=
  match s with
  | EmptyString => EmptyString
  | String c t =>
      match rstrip t with
      | EmptyString => if isspace c then EmptyString else String c EmptyString
      | t' => String c t'
      end
  end.

(** [s.strip()] *)
Definition strip (s : string) : string := rstrip (lstrip s).

(** [s.lower()] *)
Fixpoint lower (s : string) : string :=
  match s with
  | EmptyString => EmptyString
  | String c t => String (lower_char c) (lower t)
  end.

(** [s.title()]: a cased character is upper-cased when the character
    before it is not cased, and lower-cased otherwise. *)
Fixpoint title_from (previous_is_cased : bool) (s : string) : string :=
  match s with
  | EmptyString => EmptyString
  | String c t =>
      String (if previous_is_cased then lower_char c else upper_char c)
             (title_from (iscased c) t)
  end.

Definition title (s : string) : string := title_from false s.

(** [needle in hay] *)
Fixpoint contains (needle hay : string) : bool :=
  prefix needle hay ||
  match hay with
  | EmptyString => false
  | String _ t => contains needle t
  end.

(** [s.endswith(suffix)] *)
Fixpoint endswith (suffix s : string) : bool :=
  (s =? suffix) ||
  match s with
  | EmptyString => false
  | String _ t => endswith suffix t
  end.

(** [s.replace(old, new)] for a pattern [old] of one character. *)
Fixpoint replace_char (old : ascii) (new s : string) : string :=
  match s with
  | EmptyString => EmptyString
  | String c t =>
      if Ascii.eqb c old then new ++ replace_char old new t
      else String c (replace_char old new t)
  end.

(** [s.replace(old, new)] for a non-empty pattern: left to right, without
    overlap.  The fuel is the length of what is left to scan. *)
Fixpoint replace_fuel (fuel : nat) (old new s : string) : string :=
  match fuel with
  | O => s
  | S fuel' =>
      if prefix old s
      then new ++ replace_fuel fuel' old new
                    (substring (String.length old)
                               (String.length s - String.length old) s)
      else match s with
           | EmptyString => EmptyString
           | String c t => String c (replace_fuel fuel' old new t)
           end
  end.

Definition replace (old new s : string) : string :=
  replace_fuel (String.length s) old new s.

(** [sep.join(parts)] *)
Definition join (sep : string) (parts : list string) : string :=
  String.concat sep parts.

(** [s * n] *)
Fixpoint repeat_str (s : string) (n : nat) : string :=
  match n with
  | O => EmptyString
  | S n' => s ++ repeat_str s n'
  end.

(** [str(n)] for a natural number. *)
Definition str_of_nat (n : nat) : string :=
  NilEmpty.string_of_uint (Nat.to_uint n).

End PyStr.
Import PyStr.

(** ** The regular expressions of the source, each as the search it runs *)

Module Re.

Fixpoint skip_digits (s : string) : string :=
  match s with
  | String c t => if isdigit c then skip_digits t else s
  | EmptyString => EmptyString
  end.

(** [re.search(r'^[A-Z]\d+:', s)]: one upper-case letter, one digit or
    more, a colon.  The colon is no digit, so the greedy run of digits is
    the only one to try. *)
Definition item_code (s : string) : bool :=
  match s with
  | String c0 (String c1 t) =>
      isupper c0 && isdigit c1 &&
      match skip_digits t with
      | String c _ => Ascii.eqb c ":"%char
      | EmptyString => false
      end
  | _ => false
  end.

(** The part of [s] before its first line feed. *)
Fixpoint first_line (s : string) : string :=
  match s with
  | EmptyString => EmptyString
  | String c t => if Ascii.eqb c "010"%char then EmptyString else String c (first_line t)
  end.

(** [re.search(r'^\[.*\]', s)]: an opening bracket, then a closing one
    later on the same line (the dot matches no line feed). *)
Definition bracketed (s : string) : bool :=
  match s with
  | String c t => Ascii.eqb c "["%char && contains "]" (first_line t)
  | EmptyString => false
  end.

(** [re.search(r'\?$', s)]: [$] matches at the end of the string and just
    before a line feed that ends it. *)
Definition ends_question_mark (s : string) : bool :=
  endswith "?" s || endswith ("?" ++ nl) s.

(** [re.search(r'^CTP:', s)] *)
Definition ctp_prefix (s : string) : bool := prefix "CTP:" s.

(** [re.search(r'^h[A-Z]', s)] *)
Definition h_upper (s : string) : bool :=
  match s with
  | String c0 (String c1 _) => Ascii.eqb c0 "h"%char && isupper c1
  | _ => false
  end.

(** [re.search(r'\d', s)] *)
Fixpoint has_digit (s : string) : bool :=
  match s with
  | EmptyString => false
  | String c t => isdigit c || has_digit t
  end.

(** [N=\d+] matched at the start of [s]: the two characters, then a
    digit (the digits after the first one do not change the answer). *)
Definition marker_here (s : string) : bool :=
  match s with
  | String c0 (String c1 (String d _)) =>
      Ascii.eqb c0 "N"%char && Ascii.eqb c1 "="%char && isdigit d
  | _ => false
  end.

(** [re.search(r'N=\d+', s)]: the pattern tried at every position. *)
Fixpoint sample_size_marker (s : string) : bool :=
  marker_here s ||
  match s with
  | EmptyString => false
  | String _ t => sample_size_marker t
  end.

End Re.

(** ** Row classifier *)

Definition row := list string.

(** The test [cell_str and cell_str != 'nan'] that the source repeats. *)
Definition present (cell_str : string) : bool :=
  truthy cell_str && negb (cell_str =? "nan").

Fixpoint first_non_empty_cell (r : row) : string :=
  match r with
  | [] => ""
  | cell :: rest =>
      let cell_str := strip cell in
      if truthy cell_str && negb (lower cell_str =? "nan")
      then cell_str
      else first_non_empty_cell rest
  end.

Definition question_patterns : list (string -> bool) :=
  [Re.item_code; Re.bracketed; Re.ends_question_mark; Re.ctp_prefix; Re.h_upper].

Definition question_words : list string :=
  ["what"; "how"; "which"; "please"; "following"].

Definition response_indicators : list string :=
  ["marketing or advertising agency"; "business entity";
   "educational institution"; "organization"; "government agency"].

Definition is_question_row (r : row) : bool :=
  let first_cell := first_non_empty_cell r in
  if existsb (fun pattern => pattern first_cell) question_patterns then true
  else if Nat.ltb 50 (String.length first_cell)
          && existsb (fun word => contains word (lower first_cell)) question_words
  then
    if negb (existsb (fun indicator => contains indicator (lower first_cell))
                     response_indicators)
    then true else false
  else false.

Definition specific_headers : list string :=
  ["Pro-to-Pro Switchers (B)"; "Software-to-Pro Switchers (C)";
   "Pro-to-Software Switchers (D)"].

(** [' '.join(str(cell) for cell in row)] *)
Definition all_cells_text (r : row) : string := join " " r.

(** The cells [is_header_row] keeps for its second text: those whose
    stripped text is not empty and is not exactly [nan]. *)
Definition header_cells (r : row) : list string :=
  filter (fun cell => present (strip cell)) r.

(** [' '.join(str(cell) for cell in row if str(cell).strip() and
    str(cell).strip() != 'nan')] *)
Definition header_row_text (r : row) : string := join " " (header_cells r).

Definition is_header_row (r : row) : bool :=
  let first_cell := first_non_empty_cell r in
  if (first_cell =? "Total") && contains "N=" (all_cells_text r) then true
  else
    let row_text := header_row_text r in
    if contains "Total (A)" row_text then true
    else if contains "Total (A)" row_text
            && contains "Pro-to-Pro Switchers (B)" row_text
            && contains "Software-to-Pro Switchers (C)" row_text
            && contains "Pro-to-Software Switchers (D)" row_text
    then true
    else if existsb (fun h => contains h row_text) specific_headers then true
    else false.

Definition response_categories : list string :=
  ["Total"; "Mean"; "Median"; "Standard Deviation";
   "Yes"; "No"; "Male"; "Female"; "Other";
   "Very important"; "Somewhat important"; "Not important";
   "Strongly agree"; "Agree"; "Disagree";
   "Currently use"; "Used"; "Never used";
   "A marketing or advertising agency";
   "A business entity"; "An educational institution";
   "An organization or non-profit"; "A government agency"].

(** [[str(cell).strip() for cell in row if str(cell).strip() and
    str(cell).strip() != 'nan']] *)
Definition non_empty_cells (r : row) : list string :=
  map strip (filter (fun cell => present (strip cell)) r).

(** [sum(1 for cell in non_empty_cells if re.search(r'\d', cell))] *)
Definition numeric_cells (r : row) : nat :=
  List.length (filter Re.has_digit (non_empty_cells r)).

Definition is_data_row (r : row) : bool :=
  let first_cell := first_non_empty_cell r in
  if negb (truthy first_cell) || (first_cell =? "nan") then false
  else if is_question_row r then false
  else if Nat.leb 2 (numeric_cells r) then true
  else if existsb (fun category => contains category first_cell) response_categories
  then true
  else Nat.ltb 0 (String.length first_cell) && Nat.ltb (String.length first_cell) 120.

(** ** Data frame *)

Record DataFrame := mkDataFrame {
  columns : list string;
  rows : list row
}.

(** [len(df)] *)
Definition df_len (df : DataFrame) : nat := List.length (rows df).

(** [df.empty]: one of the two axes has length zero. *)
Definition df_empty (df : DataFrame) : bool :=
  Nat.eqb (df_len df) 0 || Nat.eqb (List.length (columns df)) 0.

(** [df.iloc[i]] for a position [i] below [len(df)]; the source takes no
    other. *)
Definition iloc (df : DataFrame) (i : nat) : row := nth i (rows df) [].

(** [df.iterrows()] *)
Definition iterrows (df : DataFrame) : list (nat * row) :=
  combine (seq 0 (df_len df)) (rows df).

(** [range(a, b)] *)
Definition range (a b : nat) : list nat := seq a (b - a).

(** [enumerate(l)] *)
Definition enumerate {A : Type} (l : list A) : list (nat * A) :=
  combine (seq 0 (List.length l)) l.

(** [bool(l)] for a list. *)
Definition nonempty {A : Type} (l : list A) : bool :=
  match l with [] => false | _ :: _ => true end.

(** [bool(x)] for a variable that holds [None] or a list. *)
Definition found {A : Type} (x : option (list A)) : bool :=
  match x with Some l => nonempty l | None => false end.

(** ** Section segmenter *)

Definition question_boundaries (df : DataFrame) : list nat :=
  map fst (filter (fun ir => is_question_row (snd ir)) (iterrows df)).

(** [question_boundaries[i + 1] if i + 1 < len(question_boundaries)
    else len(df)] *)
Definition question_end_of (df : DataFrame) (boundaries : list nat) (i : nat) : nat :=
  if Nat.ltb (i + 1) (List.length boundaries)
  then nth (i + 1) boundaries 0
  else df_len df.

(** The pairs [(question_start, question_end)] the main loop goes through. *)
Definition sections (df : DataFrame) : list (nat * nat) :=
  let boundaries := question_boundaries df in
  map (fun iq => (snd iq, question_end_of df boundaries (fst iq)))
      (enumerate boundaries).

(** ** Header reconciler *)

(** The list the source builds from a row, in three places under the names
    [headers], [data_row] and [th]: the stripped text of each cell, and the
    empty string for a cell that is empty or [nan]. *)
Definition clean_cells (r : row) : list string :=
  map (fun cell => let cell_str := strip cell in
                   if present cell_str then cell_str else "") r.

(** The rows at the positions [range(a, b)]. *)
Definition rows_in (df : DataFrame) (a b : nat) : list row :=
  map (iloc df) (range a b).

(** One turn of the loop that sorts the rows of a section into
    [all_header_rows] and [section_data]. *)
Definition collect_step (acc : list (list string) * list (list string)) (r : row)
  : list (list string) * list (list string) :=
  let '(all_header_rows, section_data) := acc in
  if is_header_row r then
    ((all_header_rows ++ [clean_cells r])%list, section_data)
  else if is_data_row r then
    let data_row := clean_cells r in
    if existsb truthy data_row
    then (all_header_rows, (section_data ++ [data_row])%list)
    else acc
  else acc.

Definition collect (df : DataFrame) (question_start question_end : nat)
  : list (list string) * list (list string) :=
  fold_left collect_step (rows_in df (question_start + 1) question_end) ([], []).

Definition all_header_rows (df : DataFrame) (question_start question_end : nat) :=
  fst (collect df question_start question_end).

Definition section_data (df : DataFrame) (question_start question_end : nat) :=
  snd (collect df question_start question_end).

Definition switcher_labels : list string :=
  ["Pro-to-Pro Switchers (B)"; "Software-to-Pro Switchers (C)";
   "Pro-to-Software Switchers (D)"].

(** ['Total (A)' in header_text or any(lbl in header_text for lbl in
    switcher_labels)] *)
Definition is_descriptive (header_row : list string) : bool :=
  let header_text := join " " header_row in
  contains "Total (A)" header_text
  || existsb (fun lbl => contains lbl header_text) switcher_labels.

(** ['N=' in header_text or re.search(r'N=\d+', header_text)] *)
Definition is_total (header_row : list string) : bool :=
  let header_text := join " " header_row in
  contains "N=" header_text || Re.sample_size_marker header_text.

(** One turn of the loop over [all_header_rows]; the state is the pair
    [(descriptive_headers, total_headers)]. *)
Definition scan_step (st : option (list string) * option (list string))
                     (header_row : list string)
  : option (list string) * option (list string) :=
  let descriptive_headers :=
    if is_descriptive header_row then Some header_row else fst st in
  let total_headers :=
    if is_total header_row then Some header_row else snd st in
  (descriptive_headers, total_headers).

Definition scan_headers (hs : list (list string))
  : option (list string) * option (list string) :=
  fold_left scan_step hs (None, None).

(** [any(re.search(r'N=\d+', c) for c in cells)] with [cells] the stripped
    texts of the cells that are neither empty nor [nan]. *)
Definition has_marker_cell (r : row) : bool :=
  existsb Re.sample_size_marker (non_empty_cells r).

(** The fallback loops: the first row with a marker cell, cleaned, and the
    loop breaks there. *)
Fixpoint search_marker (candidates : list row) : option (list string) :=
  match candidates with
  | [] => None
  | r :: rest =>
      if has_marker_cell r then Some (clean_cells r) else search_marker rest
  end.

(** [total_headers] once the scan of the flagged rows and the two fallback
    searches are through (the branch [if all_header_rows:]). *)
Definition total_headers_of (df : DataFrame) (question_start question_end : nat)
                            (scanned : option (list string)) : option (list string) :=
  let total_headers := scanned in
  let total_headers :=
    if negb (found total_headers) then
      match search_marker (rows_in df (question_start + 1) question_end) with
      | Some th => Some th
      | None => total_headers
      end
    else total_headers in
  let total_headers :=
    if negb (found total_headers) then
      let start_above := Nat.max 0 (question_start - 6) in
      match search_marker (rows_in df start_above question_start) with
      | Some th => Some th
      | None => total_headers
      end
    else total_headers in
  total_headers.

(** [[x]] when [x] is true, nothing otherwise. *)
Definition append_if_found (x : option (list string)) : list (list string) :=
  match x with
  | Some l => if nonempty l then [l] else []
  | None => []
  end.

(** The list [header_rows] of a section. *)
Definition header_rows_of (df : DataFrame) (question_start question_end : nat)
  : list (list string) :=
  let hs := all_header_rows df question_start question_end in
  if nonempty hs then
    let '(descriptive_headers, scanned) := scan_headers hs in
    let total_headers := total_headers_of df question_start question_end scanned in
    (append_if_found descriptive_headers ++ append_if_found total_headers)%list
  else [].

(** ** Table renderer *)

(** [while len(r) < n: r.append("")].  The source appends in place; a list
    it extends is not read again after the line it is padded for, and the
    two entries of [header_rows] have one length when they are one object,
    so the padded copy is all that is observed. *)
Definition pad_to (n : nat) (r : list string) : list string :=
  (r ++ repeat "" (n - List.length r))%list.

(** [max(len(row) for row in data_rows) if data_rows else 0] *)
Definition max_cols (data_rows : list (list string)) : nat :=
  fold_right (fun r m => Nat.max (List.length r) m) 0 data_rows.

(** [[f"Column {i+1}" for i in range(max_cols)]] *)
Definition generic_headers (n : nat) : list string :=
  map (fun i => "Column " ++ str_of_nat (i + 1)) (range 0 n).

Definition table_headers_of (header_rows data_rows : list (list string)) : list string :=
  match header_rows with
  | primary :: _ => primary
  | [] => generic_headers (max_cols data_rows)
  end.

(** [str(cell).replace('|', '\\|').replace('\n', ' ')] *)
Definition clean_cell (cell : string) : string :=
  replace_char "010"%char " " (replace_char "|"%char "\|" cell).

(** ["| " + " | ".join(cells) + " |\n"] *)
Definition table_line (cells : list string) : string :=
  "| " ++ join " | " cells ++ " |" ++ nl.

Definition header_line (table_headers : list string) : string :=
  table_line table_headers.

(** ["|" + "---|" * len(table_headers) + "\n"] *)
Definition separator_line (table_headers : list string) : string :=
  "|" ++ repeat_str "---|" (List.length table_headers) ++ nl.

Definition secondary_line (table_headers secondary : list string) : string :=
  let n := List.length table_headers in
  table_line (firstn n (pad_to n secondary)).

Definition data_line (table_headers data_row : list string) : string :=
  let n := List.length table_headers in
  table_line (map clean_cell (firstn n (pad_to n data_row))).

(** The line of the secondary header, when [header_rows] has a second entry. *)
Definition secondary_lines (table_headers : list string)
                           (header_rows : list (list string)) : string :=
  match header_rows with
  | _ :: secondary :: _ => secondary_line table_headers secondary
  | _ => ""
  end.

Definition section_heading (question_num : nat) (question : string) : string :=
  "### Question " ++ str_of_nat question_num ++ nl ++ nl
  ++ "**" ++ question ++ "**" ++ nl ++ nl.

Definition no_data_text : string :=
  "*No response data available for this question.*".

Definition format_question_section (question_num : nat) (question : string)
    (header_rows data_rows : list (list string)) : string :=
  let content := section_heading question_num question in
  if negb (nonempty header_rows) && negb (nonempty data_rows) then
    content ++ no_data_text ++ nl ++ nl
  else
    let table_headers := table_headers_of header_rows data_rows in
    if nonempty data_rows then
      content ++ "#### Response Data" ++ nl ++ nl
      ++ header_line table_headers
      ++ separator_line table_headers
      ++ secondary_lines table_headers header_rows
      ++ String.concat "" (map (data_line table_headers) data_rows)
      ++ nl
    else content.

(** ** Document assembler *)

(** [str(df.iloc[question_start].iloc[0]).strip()]: the cell in the first
    column of the question row.  A row the classifier takes for a question
    has a cell, so the position exists. *)
Definition question_text_of (df : DataFrame) (question_start : nat) : string :=
  strip (hd "" (iloc df question_start)).

(** One turn of the loop over the sections; the state is
    [(question_number, markdown_content)]. *)
Definition process_section (df : DataFrame) (st : nat * string) (sec : nat * nat)
  : nat * string :=
  let '(question_number, markdown_content) := st in
  let '(question_start, question_end) := sec in
  let question_text := question_text_of df question_start in
  let header_rows := header_rows_of df question_start question_end in
  let data := section_data df question_start question_end in
  if nonempty header_rows || nonempty data then
    let question_number := question_number + 1 in
    (question_number,
     markdown_content
     ++ format_question_section question_number question_text header_rows data)
  else st.

Definition empty_file_text : string := "*This file is empty.*".

Definition document_head (df : DataFrame) (filename : string) : string :=
  let file_title := title (replace ".csv" "" (replace_char "_"%char " " filename)) in
  "# " ++ file_title ++ nl ++ nl
  ++ "**Total Records:** " ++ str_of_nat (df_len df) ++ "  " ++ nl
  ++ "**Total Columns:** " ++ str_of_nat (List.length (columns df)) ++ "  " ++ nl
  ++ "**Generated:** October 28, 2025  " ++ nl ++ nl
  ++ "## Survey Questions and Responses" ++ nl ++ nl.

Definition summary (question_number : nat) (filename : string) : string :=
  "## Summary" ++ nl ++ nl
  ++ "**Total Questions Processed:** " ++ str_of_nat question_number ++ "  " ++ nl
  ++ "**Source File:** " ++ filename ++ "  " ++ nl.

(** The state of the main loop after the last section. *)
Definition process_sections (df : DataFrame) (filename : string) : nat * string :=
  fold_left (process_section df) (sections df) (0, document_head df filename).

Definition format_survey_csv_to_markdown (df : DataFrame) (filename : string) : string :=
  if df_empty df then
    "# " ++ filename ++ nl ++ nl ++ empty_file_text ++ nl
  else
    let '(question_number, markdown_content) := process_sections df filename in
    markdown_content ++ summary question_number filename.

(** ** File names *)

(** The character class [invalid_chars] of [sanitize_filename]: the two
    angle brackets, the colon, the double quote (written by its code, 34),
    the slash, the backslash, the pipe, the question mark and the star. *)
Definition invalid_chars : list ascii :=
  ["<"; ">"; ":"; "034"; "/"; "\"; "|"; "?"; "*"]%char.

Definition is_invalid_char (c : ascii) : bool :=
  existsb (Ascii.eqb c) invalid_chars.

(** [re.sub(invalid_chars, '_', filename)]: the class matches one character
    at a time. *)
Fixpoint sub_invalid_chars (filename : string) : string :=
  match filename with
  | EmptyString => EmptyString
  | String c t =>
      String (if is_invalid_char c then "_"%char else c) (sub_invalid_chars t)
  end.

(** [s.lstrip(chars)], [s.rstrip(chars)] and [s.strip(chars)] for a set of
    characters given by its test. *)
Fixpoint lstrip_chars (p : ascii -> bool) (s : string) : string :=
  match s with
  | EmptyString => EmptyString
  | String c t => if p c then lstrip_chars p t else s
  end.

Fixpoint rstrip_chars (p : ascii -> bool) (s : string) : string :=
  match s with
  | EmptyString => EmptyString
  | String c t =>
      match rstrip_chars p t with
      | EmptyString => if p c then EmptyString else String c EmptyString
      | t' => String c t'
      end
  end.

Definition strip_chars (p : ascii -> bool) (s : string) : string :=
  rstrip_chars p (lstrip_chars p s).

(** The characters of ['. ']. *)
Definition dot_or_space (c : ascii) : bool :=
  Ascii.eqb c "."%char || Ascii.eqb c " "%char.

Definition sanitize_filename (filename : string) : string :=
  let sanitized := sub_invalid_chars filename in
  let sanitized := strip_chars dot_or_space sanitized in
  if Nat.ltb 200 (String.length sanitized)
  then substring 0 200 sanitized
  else sanitized.

(** ** Sample grids *)

Module Samples.

(** Two flagged rows; only the first has digits after [N=]. *)
Definition two_totals : DataFrame :=
  mkDataFrame ["c0"; "c1"]
    [ ["Q1: Which plan?"; "nan"];
      ["Total (A)"; "N=100"];
      ["Total (A)"; "N=TBD"] ].

(** A sample-size row in a section without a flagged row. *)
Definition unflagged_base : DataFrame :=
  mkDataFrame ["c0"; "c1"]
    [ ["Q1: Do you like tea?"; "nan"];
      ["Base"; "N=100"];
      ["Yes"; "60%"] ].

(** A sample-size row above the question row. *)
Definition base_above : DataFrame :=
  mkDataFrame ["c0"; "c1"]
    [ ["Base"; "N=250"];
      ["Q1: Which plan?"; "nan"];
      ["Total (A)"; "Pro-to-Pro Switchers (B)"];
      ["Yes"; "60%"] ].

(** A marker in the question row itself, above a flagged row without one. *)
Definition marker_in_question_row : DataFrame :=
  mkDataFrame ["c0"; "c1"]
    [ ["Q1: Which plan?"; "N=100"];
      ["Total (A)"; "Pro-to-Pro Switchers (B)"];
      ["Yes"; "60%"] ].

(** A question row and nothing under it. *)
Definition lone_question : DataFrame :=
  mkDataFrame ["c0"] [ ["Q1: Do you like tea?"] ].

(** A question row with a header row and no response row. *)
Definition header_only : DataFrame :=
  mkDataFrame ["c0"; "c1"]
    [ ["Q1: Which plan?"; "nan"];
      ["Total (A)"; "Pro-to-Pro Switchers (B)"] ].

(** Column labels and no row. *)
Definition no_rows : DataFrame := mkDataFrame ["c0"; "c1"] [].

(** A header cell with a pipe in it. *)
Definition piped_header : DataFrame :=
  mkDataFrame ["c0"; "c1"]
    [ ["Q1: Which plan?"; "nan"];
      ["Total (A) | all"; "Pro-to-Pro Switchers (B)"];
      ["Yes"; "60%"] ].

Definition tea : DataFrame :=
  mkDataFrame ["c0"; "c1"]
    [ ["Q1: Do you like tea?"; "nan"];
      ["Total"; "N=100"];
      ["Yes"; "60%"];
      ["No"; "40%"] ].

End Samples.

(** ** Vocabulary of the statements *)

(** The triggers of [is_header_row] other than the [Total] test: the texts
    it looks for in the joined non-empty cells. *)
Definition other_header_trigger (r : row) : bool :=
  contains "Total (A)" (header_row_text r)
  || existsb (fun h => contains h (header_row_text r)) specific_headers.

(** A cell whose stripped text is [nan] in another casing than the
    lower-case one ([NaN], [NAN], [Nan], ...). *)
Definition nan_in_other_case (cell : string) : Prop :=
  lower (strip cell) = "nan" /\ strip cell <> "nan".

(** Row [r] lies in the half-open range of a section. *)
Definition in_section (r : nat) (sec : nat * nat) : Prop :=
  fst sec <= r /\ r < snd sec.

(** The ranges cut by a list of boundaries in a grid of [n] rows: each runs
    to the next boundary, the last to the end of the grid. *)
Fixpoint ranges_of (boundaries : list nat) (n : nat) : list (nat * nat) :=
  match boundaries with
  | [] => []
  | b :: rest => (b, hd n rest) :: ranges_of rest n
  end.

(** The number of rows of a section. *)
Definition section_length (sec : nat * nat) : nat := snd sec - fst sec.

(** The last element of a list that passes a test. *)
Definition find_last {A : Type} (P : A -> bool) (l : list A) : option A :=
  find P (rev l).

(** The joined text of a header row contains the two characters [N=]. *)
Definition contains_N_eq (header_row : list string) : bool :=
  contains "N=" (join " " header_row).

(** The joined text of a header row has a marker [N=<digits>]. *)
Definition has_marker_text (header_row : list string) : bool :=
  Re.sample_size_marker (join " " header_row).

Definition opt_list {A : Type} (x : option A) : list A :=
  match x with Some a => [a] | None => [] end.

(** The rows of a section that [is_header_row] flags, in row order. *)
Definition flagged_rows (df : DataFrame) (question_start question_end : nat) : list row :=
  filter is_header_row (rows_in df (question_start + 1) question_end).

(** The two variables of the reconciler after its loop over the flagged
    rows. *)
Definition descriptive_headers_of (df : DataFrame) (question_start question_end : nat) :=
  fst (scan_headers (all_header_rows df question_start question_end)).

Definition scanned_total_of (df : DataFrame) (question_start question_end : nat) :=
  snd (scan_headers (all_header_rows df question_start question_end)).

(** The sample-size header of a section: [total_headers] after the
    fallback searches. *)
Definition sample_size_header_of (df : DataFrame) (question_start question_end : nat) :=
  total_headers_of df question_start question_end
                   (scanned_total_of df question_start question_end).

(** The rows the fallback goes through, in the order it does: the rows of
    the section after the question row, then the rows at the six positions
    before the question row (fewer when the grid starts later). *)
Definition fallback_candidates (df : DataFrame) (question_start question_end : nat) : list row :=
  (rows_in df (question_start + 1) question_end
   ++ rows_in df (question_start - 6) question_start)%list.

(** ** Reading a table row back *)

(** [c] put in front of the first piece. *)
Definition push_char (c : ascii) (pieces : list string) : list string :=
  match pieces with
  | [] => [String c EmptyString]
  | piece :: others => String c piece :: others
  end.

(** The pieces of a line between its unescaped pipes.  A pipe is escaped
    when a backslash stands right before it; the two characters then stay
    in the piece. *)
Fixpoint split_unescaped (s : string) : list string :=
  match s with
  | EmptyString => [EmptyString]
  | String c t =>
      if Ascii.eqb c "|"%char then EmptyString :: split_unescaped t
      else if Ascii.eqb c "\"%char then
        match t with
        | String d t' =>
            if Ascii.eqb d "|"%char
            then push_char c (push_char d (split_unescaped t'))
            else push_char c (split_unescaped t)
        | EmptyString => push_char c (split_unescaped t)
        end
      else push_char c (split_unescaped t)
  end.

(** The fields of a table row: the pieces between its first and its last
    unescaped pipe. *)
Definition table_fields (line : string) : list string :=
  removelast (tl (split_unescaped line)).

(** The number of pieces a line falls into. *)
Definition pieces (s : string) : nat := List.length (split_unescaped s).

Definition starts_with_pipe (s : string) : bool :=
  match s with
  | String d _ => Ascii.eqb d "|"%char
  | EmptyString => false
  end.

(** A cell text that opens no new piece in a line, whatever follows it
    that starts with no pipe. *)
Definition adds_no_piece (cell : string) : Prop :=
  forall rest, starts_with_pipe rest = false ->
               pieces (cell ++ rest) = pieces rest.

(** The boundaries found in the rows that start at position [k]. *)
Definition boundaries_from (k : nat) (rs : list row) : list nat :=
  map fst (filter (fun ir => is_question_row (snd ir))
                  (combine (seq k (List.length rs)) rs)).

(** Boundaries that increase strictly and lie below [n]. *)
Inductive increasing_below (n : nat) : list nat -> Prop :=
| ib_nil : increasing_below n []
| ib_cons b rest :
    b < n -> Forall (fun b' => b < b') rest -> increasing_below n rest ->
    increasing_below n (b :: rest).

(** What the assembler passes to the renderer for a section. *)
Definition rendering (df : DataFrame) (k qs qe : nat) : string :=
  format_question_section k (question_text_of df qs)
    (header_rows_of df qs qe) (section_data df qs qe).

(** Every character of a string passes a test. *)
Fixpoint all_chars (p : ascii -> bool) (s : string) : bool :=
  match s with
  | EmptyString => true
  | String c t => p c && all_chars p t
  end.

(** The first and the last character of a string, if it has one. *)
Definition first_char (s : string) : option ascii :=
  match s with
  | EmptyString => None
  | String c _ => Some c
  end.

Fixpoint last_char (s : string) : option ascii :=
  match s with
  | EmptyString => None
  | String c t =>
      match last_char t with
      | None => Some c
      | Some d => Some d
      end
  end.

(** A character, if there is one, is none of ['. ']. *)
Definition not_dot_or_space (x : option ascii) : Prop :=
  match x with
  | None => True
  | Some c => dot_or_space c = false
  end.

(** A cell that [first_non_empty_cell] passes over: its stripped text is
    empty or is [nan] in some casing. *)
Definition passed_over (cell : string) : Prop :=
  strip cell = "" \/ lower (strip cell) = "nan".

(** A cell of a blank row: its stripped text is empty or is [nan], the text
    of a missing value. *)
Definition blank_cell (cell : string) : Prop :=
  strip cell = "" \/ strip cell = "nan".

(** The rows of a section that are data rows and are not flagged as header
    rows, in row order. *)
Definition unflagged_data_rows (df : DataFrame) (question_start question_end : nat) : list row :=
  filter (fun r => negb (is_header_row r) && is_data_row r)
         (rows_in df (question_start + 1) question_end).

(** Every row of the grid has one cell for each column. *)
Definition rectangular (df : DataFrame) : Prop :=
  Forall (fun r => List.length r = List.length (columns df)) (rows df).

(** Position [p] is one the reconciler takes a header row from: inside the
    section after the question row, or among the six positions before the
    question row. *)
Definition header_position (question_start question_end p : nat) : Prop :=
  (question_start < p /\ p < question_end)
  \/ (question_start - 6 <= p /\ p < question_start).

(** A string has no line feed. *)
Definition one_line (s : string) : bool :=
  all_chars (fun c => negb (Ascii.eqb c "010"%char)) s.

(** The test of the assembler on a section: it has a header row or a data
    row. *)
Definition has_content (df : DataFrame) (sec : nat * nat) : bool :=
  nonempty (header_rows_of df (fst sec) (snd sec))
  || nonempty (section_data df (fst sec) (snd sec)).

(** The sections the assembler renders. *)
Definition kept_sections (df : DataFrame) : list (nat * nat) :=
  filter (has_content df) (sections df).

(** The renderings of a list of sections, numbered from [k] on. *)
Definition numbered_renderings (df : DataFrame) (k : nat) (secs : list (nat * nat)) : string :=
  concat "" (map (fun ks => rendering df (fst ks) (fst (snd ks)) (snd (snd ks)))
                 (combine (seq k (List.length secs)) secs)).

(** A string starts with the two characters [N=]. *)
Definition starts_N_eq (s : string) : bool :=
  match s with
  | String c (String d _) => Ascii.eqb c "N"%char && Ascii.eqb d "="%char
  | _ => false
  end.

(** * Properties *)

(** ** Strings *)

Section StringFacts.

Lemma prefix_append_l (x a b : string) :
  prefix x a = true -> prefix x (a ++ b) = true.
Proof.
  revert a. induction x as [|c x' IH]; intros a; destruct a as [|d a'];
    simpl; try easy.
  - intros _. now destruct b.
  - destruct (ascii_dec c d); [apply IH | discriminate].
Qed.

Lemma contains_append_l (x a b : string) :
  contains x a = true -> contains x (a ++ b) = true.
Proof.
  induction a as [|d a IH]; simpl.
  - rewrite orb_false_r. intros H. destruct x; [|discriminate].
    destruct b; reflexivity.
  - intros H. apply orb_true_iff in H as [H|H].
    + apply (prefix_append_l _ (String d a) b) in H. simpl in H.
      rewrite H. reflexivity.
    + rewrite (IH H). apply orb_true_r.
Qed.

Lemma contains_append_r (x a b : string) :
  contains x b = true -> contains x (a ++ b) = true.
Proof.
  intros H. induction a as [|d a IH]; simpl; [assumption|].
  rewrite IH. apply orb_true_r.
Qed.

Lemma append_assoc (a b c : string) : (a ++ b) ++ c = a ++ (b ++ c).
Proof. induction a as [|x a IH]; cbn; [reflexivity | now rewrite IH]. Qed.

Lemma append_empty_r (a : string) : a ++ "" = a.
Proof. induction a as [|x a IH]; cbn; [reflexivity | now rewrite IH]. Qed.

Lemma prefix_refl (x : string) : prefix x x = true.
Proof.
  induction x as [|c x' IH]; simpl; [reflexivity|].
  destruct (ascii_dec c c); [assumption | contradiction].
Qed.

Lemma contains_refl (x : string) : contains x x = true.
Proof.
  destruct x; [reflexivity|].
  cbn [contains]. rewrite prefix_refl. reflexivity.
Qed.

Lemma marker_here_prefix (s : string) :
  Re.marker_here s = true -> prefix "N=" s = true.
Proof.
  destruct s as [|c0 [|c1 [|d t]]]; try discriminate.
  unfold Re.marker_here. intros H.
  apply andb_true_iff in H as [H _]. apply andb_true_iff in H as [H0 H1].
  apply Ascii.eqb_eq in H0, H1. subst. reflexivity.
Qed.

Lemma contains_middle (x a b : string) : contains x (a ++ x ++ b) = true.
Proof. apply contains_append_r, contains_append_l, contains_refl. Qed.

(** A sample-size marker [N=<digits>] has the two characters [N=] in it. *)
Lemma marker_contains_N_eq (s : string) :
  Re.sample_size_marker s = true -> contains "N=" s = true.
Proof.
  induction s as [|c t IH]; [discriminate|].
  cbn [Re.sample_size_marker contains]. intros H.
  apply orb_true_iff in H as [H|H]; apply orb_true_iff.
  - left. now apply marker_here_prefix.
  - right. now apply IH.
Qed.

End StringFacts.

(** ** Row classifier *)

Section Classifier.

(** C1.  A row the classifier takes for a question is never taken for a
    data row: [is_data_row] asks [is_question_row] before any of its own
    tests, so the question predicate has precedence. *)
Theorem question_excludes_data (r : row) :
  is_question_row r = true -> is_data_row r = false.
Proof.
  intros Hq. unfold is_data_row. rewrite Hq.
  now destruct (negb (truthy (first_non_empty_cell r))
                || (first_non_empty_cell r =? "nan")).
Qed.

Lemma question_excludes_data_witness :
  is_question_row ["Q1: Do you like tea?"; "nan"] = true
  /\ is_data_row ["Q1: Do you like tea?"; "nan"] = false.
Proof.
  split; [reflexivity|].
  apply (question_excludes_data ["Q1: Do you like tea?"; "nan"]).
  reflexivity.
Defined.

Lemma is_header_row_cases (r : row) :
  is_header_row r =
    ((first_non_empty_cell r =? "Total") && contains "N=" (all_cells_text r))
    || other_header_trigger r.
Proof.
  unfold is_header_row, other_header_trigger.
  destruct ((first_non_empty_cell r =? "Total")
            && contains "N=" (all_cells_text r)); [reflexivity|].
  destruct (contains "Total (A)" (header_row_text r)); [reflexivity|].
  cbn [andb orb].
  now destruct (existsb _ specific_headers).
Qed.

(** C9, as the spec words it, fails: a [Total] row with [N=] and no digit
    after it is a header row. *)
Lemma total_row_header_without_digits :
  let r := ["Total"; "N=abc"] in
  first_non_empty_cell r = "Total"
  /\ other_header_trigger r = false
  /\ is_header_row r = true
  /\ Re.sample_size_marker (all_cells_text r) = false.
Proof. repeat split. Qed.

(** C9, amended.  For a row whose first non-empty cell is exactly [Total]
    and that matches none of the other triggers, [is_header_row] holds
    exactly when the text of all the cells joined by spaces contains the
    two characters [N=]; no digit has to follow. *)
Theorem total_row_header_iff (r : row) :
  first_non_empty_cell r = "Total" ->
  other_header_trigger r = false ->
  (is_header_row r = true <-> contains "N=" (all_cells_text r) = true).
Proof.
  intros Hfirst Hother. rewrite is_header_row_cases, Hfirst, Hother.
  rewrite orb_false_r. cbn [String.eqb Ascii.eqb Bool.eqb andb].
  reflexivity.
Qed.

Lemma total_row_header_iff_witness :
  is_header_row ["Total"; "N=abc"] = true
  <-> contains "N=" (all_cells_text ["Total"; "N=abc"]) = true.
Proof.
  apply (total_row_header_iff ["Total"; "N=abc"]); reflexivity.
Defined.

(** A marker with digits is one way for the [Total] test to pass. *)
Lemma total_row_with_marker_is_header (r : row) :
  first_non_empty_cell r = "Total" ->
  Re.sample_size_marker (all_cells_text r) = true ->
  is_header_row r = true.
Proof.
  intros Hfirst Hm. rewrite is_header_row_cases, Hfirst.
  rewrite (marker_contains_N_eq _ Hm). reflexivity.
Qed.

End Classifier.

Section NullMarker.

Lemma nan_in_other_case_present (cell : string) :
  nan_in_other_case cell -> present (strip cell) = true.
Proof.
  intros [Hl Hne]. unfold present.
  destruct (strip cell) as [|c t] eqn:E; [discriminate|].
  apply eqb_neq in Hne. rewrite Hne. reflexivity.
Qed.

Lemma first_non_empty_cell_skips (cell : string) (rest : row) :
  lower (strip cell) = "nan" ->
  first_non_empty_cell (cell :: rest) = first_non_empty_cell rest.
Proof.
  intros Hl. cbn [first_non_empty_cell]. rewrite Hl.
  cbn [String.eqb Ascii.eqb Bool.eqb negb]. now rewrite andb_false_r.
Qed.

(** C10.  A cell whose stripped text is [nan] in another casing is absent
    for [first_non_empty_cell], which lower-cases before it compares: the
    scan gives what it gives on the row without that cell.  The same cell
    is kept, at its place, among the cells [is_header_row] joins into its
    row text and among the non-empty cells [is_data_row] counts the
    numeric ones of, since both compare with [nan] as it is written. *)
Theorem nan_casing_asymmetry (before after : row) (cell : string) :
  nan_in_other_case cell ->
  first_non_empty_cell (before ++ cell :: after)%list
    = first_non_empty_cell (before ++ after)%list
  /\ header_row_text (before ++ cell :: after)%list
      = join " " (header_cells before ++ cell :: header_cells after)%list
  /\ non_empty_cells (before ++ cell :: after)%list
      = (non_empty_cells before ++ strip cell :: non_empty_cells after)%list.
Proof.
  intros Hc. pose proof (nan_in_other_case_present _ Hc) as Hp.
  destruct Hc as [Hl _]. repeat split.
  - induction before as [|b before IH]; cbn [app].
    + now apply first_non_empty_cell_skips.
    + cbn [first_non_empty_cell]. now rewrite IH.
  - unfold header_row_text, header_cells.
    rewrite filter_app. cbn [filter]. now rewrite Hp.
  - unfold non_empty_cells.
    rewrite filter_app, map_app. cbn [filter]. now rewrite Hp.
Qed.

Lemma nan_casing_asymmetry_witness :
  first_non_empty_cell ["NaN"; "Total"; "N=5"] = "Total"
  /\ header_row_text ["NaN"; "Total"; "N=5"] = "NaN Total N=5"
  /\ non_empty_cells ["NaN"; "Total"; "N=5"] = ["NaN"; "Total"; "N=5"].
Proof.
  assert (H : nan_in_other_case "NaN") by (split; [reflexivity | discriminate]).
  exact (nan_casing_asymmetry [] ["Total"; "N=5"] "NaN" H).
Defined.

(** The lower-case marker itself is absent for all three. *)
Lemma nan_cell_absent (before after : row) (cell : string) :
  strip cell = "nan" ->
  first_non_empty_cell (before ++ cell :: after)%list
    = first_non_empty_cell (before ++ after)%list
  /\ header_cells (before ++ cell :: after)%list = header_cells (before ++ after)%list
  /\ non_empty_cells (before ++ cell :: after)%list = non_empty_cells (before ++ after)%list.
Proof.
  intros Hs. repeat split.
  - induction before as [|b before IH]; cbn [app].
    + apply first_non_empty_cell_skips. now rewrite Hs.
    + cbn [first_non_empty_cell]. now rewrite IH.
  - unfold header_cells. rewrite !filter_app. cbn [filter]. now rewrite Hs.
  - unfold non_empty_cells. rewrite !filter_app. cbn [filter]. now rewrite Hs.
Qed.

End NullMarker.

(** ** Section segmenter *)

Section Segmenter.

Lemma boundaries_from_cons (k : nat) (r : row) (rs : list row) :
  boundaries_from k (r :: rs) =
    if is_question_row r then k :: boundaries_from (S k) rs
    else boundaries_from (S k) rs.
Proof.
  unfold boundaries_from. cbn [List.length seq combine filter snd].
  now destruct (is_question_row r).
Qed.

Lemma question_boundaries_from (df : DataFrame) :
  question_boundaries df = boundaries_from 0 (rows df).
Proof. reflexivity. Qed.

Lemma boundaries_from_In (rs : list row) : forall k b,
  In b (boundaries_from k rs) <->
  k <= b /\ b < k + List.length rs /\ is_question_row (nth (b - k) rs []) = true.
Proof.
  induction rs as [|r rs IH]; intros k b.
  - cbn. split; [tauto | lia].
  - rewrite boundaries_from_cons. cbn [List.length].
    assert (Hstep : In b (boundaries_from (S k) rs) <->
                    S k <= b /\ b < k + S (List.length rs)
                    /\ is_question_row (nth (b - k) (r :: rs) []) = true).
    { rewrite IH. split; intros (H1 & H2 & H3); (split; [lia|split; [lia|]]).
      - replace (b - k) with (S (b - S k)) by lia. exact H3.
      - replace (b - k) with (S (b - S k)) in H3 by lia. exact H3. }
    destruct (is_question_row r) eqn:Hq.
    + cbn [In]. rewrite Hstep. split.
      * intros [<-|(H1 & H2 & H3)].
        -- rewrite Nat.sub_diag. cbn. split; [lia|split; [lia|exact Hq]].
        -- split; [lia|split; [lia|exact H3]].
      * intros (H1 & H2 & H3).
        destruct (Nat.eq_dec k b) as [->|Hne]; [now left|right].
        split; [lia|split; [lia|exact H3]].
    + rewrite Hstep. split.
      * intros (H1 & H2 & H3). split; [lia|split; [lia|exact H3]].
      * intros (H1 & H2 & H3).
        destruct (Nat.eq_dec k b) as [->|Hne].
        -- rewrite Nat.sub_diag in H3. cbn in H3. congruence.
        -- split; [lia|split; [lia|exact H3]].
Qed.

Lemma boundaries_from_length (rs : list row) : forall k,
  List.length (boundaries_from k rs) = List.length (filter is_question_row rs).
Proof.
  induction rs as [|r rs IH]; intros k; [reflexivity|].
  rewrite boundaries_from_cons. cbn [filter].
  destruct (is_question_row r); cbn [List.length]; now rewrite IH.
Qed.

Lemma boundaries_from_increasing (rs : list row) : forall k,
  increasing_below (k + List.length rs) (boundaries_from k rs).
Proof.
  induction rs as [|r rs IH]; intros k; [constructor|].
  rewrite boundaries_from_cons. cbn [List.length].
  replace (k + S (List.length rs)) with (S k + List.length rs) by lia.
  destruct (is_question_row r); [|apply IH].
  constructor; [lia| |apply IH].
  apply Forall_forall. intros b Hb. apply boundaries_from_In in Hb. lia.
Qed.

Lemma question_boundaries_increasing (df : DataFrame) :
  increasing_below (df_len df) (question_boundaries df).
Proof. exact (boundaries_from_increasing (rows df) 0). Qed.

Lemma question_boundaries_In (df : DataFrame) (b : nat) :
  In b (question_boundaries df) <->
  b < df_len df /\ is_question_row (iloc df b) = true.
Proof.
  rewrite question_boundaries_from, boundaries_from_In.
  unfold iloc, df_len. rewrite Nat.sub_0_r. cbn [Nat.add]. intuition lia.
Qed.

Lemma enumerate_nth {A : Type} (l : list A) (d : A) (i : nat) :
  i < List.length l -> nth i (enumerate l) (0, d) = (i, nth i l d).
Proof.
  intros Hi. unfold enumerate.
  rewrite combine_nth by apply length_seq.
  now rewrite seq_nth.
Qed.

Lemma sections_length (df : DataFrame) :
  List.length (sections df) = List.length (question_boundaries df).
Proof.
  unfold sections, enumerate.
  rewrite length_map, length_combine, length_seq. apply Nat.min_id.
Qed.

(** Section [i] starts at boundary [i] and ends where the source says. *)
Lemma sections_nth (df : DataFrame) (i : nat) :
  i < List.length (question_boundaries df) ->
  nth i (sections df) (0, 0) =
    (nth i (question_boundaries df) 0,
     question_end_of df (question_boundaries df) i).
Proof.
  intros Hi. unfold sections.
  set (f := fun iq : nat * nat =>
              (snd iq, question_end_of df (question_boundaries df) (fst iq))).
  rewrite (nth_indep _ (0, 0) (f (0, 0))).
  - rewrite map_nth, enumerate_nth by exact Hi. reflexivity.
  - rewrite length_map. unfold enumerate.
    rewrite length_combine, length_seq, Nat.min_id. exact Hi.
Qed.

Lemma ranges_of_length (bs : list nat) (n : nat) :
  List.length (ranges_of bs n) = List.length bs.
Proof. induction bs; cbn; congruence. Qed.

Lemma ranges_of_nth (n : nat) (bs : list nat) : forall i,
  i < List.length bs ->
  nth i (ranges_of bs n) (0, 0) =
    (nth i bs 0,
     if Nat.ltb (i + 1) (List.length bs) then nth (i + 1) bs 0 else n).
Proof.
  induction bs as [|b rest IH]; intros i Hi; [cbn in Hi; lia|].
  destruct i as [|i].
  - destruct rest; reflexivity.
  - cbn [ranges_of nth List.length]. cbn [List.length] in Hi.
    rewrite IH by lia.
    replace (S i + 1) with (S (i + 1)) by lia. cbn [nth].
    destruct (Nat.ltb_spec (i + 1) (List.length rest));
      destruct (Nat.ltb_spec (S (i + 1)) (S (List.length rest)));
      try lia; reflexivity.
Qed.

(** The loop over [enumerate(question_boundaries)] cuts the grid into the
    ranges of its boundaries. *)
Lemma sections_ranges (df : DataFrame) :
  sections df = ranges_of (question_boundaries df) (df_len df).
Proof.
  apply (nth_ext _ _ (0, 0) (0, 0)).
  - now rewrite sections_length, ranges_of_length.
  - intros i Hi. rewrite sections_length in Hi.
    rewrite sections_nth, ranges_of_nth by exact Hi. reflexivity.
Qed.

Lemma ranges_of_starts (bs : list nat) (n : nat) :
  map fst (ranges_of bs n) = bs.
Proof. induction bs; cbn; congruence. Qed.

Lemma ranges_of_bounds (n : nat) (bs : list nat) :
  increasing_below n bs ->
  forall sec, In sec (ranges_of bs n) -> fst sec < snd sec /\ snd sec <= n.
Proof.
  induction 1 as [|b rest Hb Hlt Hrest IH]; intros sec; cbn [ranges_of In];
    [tauto|].
  intros [<-|Hin]; [|now apply IH]. cbn [fst snd].
  destruct Hrest as [|b' rest' Hb' _ _]; cbn [hd]; [lia|].
  inversion Hlt; subst. lia.
Qed.

Lemma ranges_of_ordered (n : nat) (bs : list nat) :
  increasing_below n bs ->
  StronglySorted (fun s t => snd s <= fst t) (ranges_of bs n).
Proof.
  induction 1 as [|b rest Hb Hlt Hrest IH]; cbn [ranges_of]; constructor;
    [exact IH|].
  apply Forall_forall. intros sec Hin. cbn [snd].
  assert (Hs : In (fst sec) rest).
  { rewrite <- (ranges_of_starts rest n). now apply in_map. }
  destruct Hrest as [|b' rest' Hb' Hlt' _]; [contradiction|]. cbn [hd].
  destruct Hs as [<-|Hs]; [lia|].
  rewrite Forall_forall in Hlt'. specialize (Hlt' _ Hs). lia.
Qed.

Lemma ranges_of_cover (n : nat) (bs : list nat) :
  increasing_below n bs ->
  forall r, r < n -> hd n bs <= r ->
  exists sec, In sec (ranges_of bs n) /\ in_section r sec.
Proof.
  induction 1 as [|b rest Hb Hlt Hrest IH]; intros r Hr Hhd; cbn [hd] in Hhd;
    [lia|].
  cbn [ranges_of].
  destruct (Nat.lt_ge_cases r (hd n rest)) as [Hlow|Hhigh].
  - exists (b, hd n rest). split; [now left|]. split; cbn; lia.
  - destruct (IH r Hr Hhigh) as (sec & Hin & Hsec).
    exists sec. split; [now right | exact Hsec].
Qed.

Lemma ranges_of_total (n : nat) (bs : list nat) :
  increasing_below n bs ->
  list_sum (map section_length (ranges_of bs n)) = n - hd n bs.
Proof.
  induction 1 as [|b rest Hb Hlt Hrest IH]; cbn [ranges_of map hd];
    [cbn; lia|].
  change (list_sum (?x :: ?l)) with (x + list_sum l). rewrite IH. unfold section_length. cbn [fst snd].
  destruct Hrest as [|b' rest' Hb' _ _]; cbn [hd]; [lia|].
  inversion Hlt; subst. lia.
Qed.

Lemma increasing_below_hd (n : nat) (bs : list nat) (q : nat) :
  increasing_below n bs -> In q bs -> hd n bs <= q.
Proof.
  intros [|b rest Hb Hlt _] Hin; [contradiction|]. cbn [hd].
  destruct Hin as [<-|Hin]; [lia|].
  rewrite Forall_forall in Hlt. specialize (Hlt _ Hin). lia.
Qed.

Lemma ordered_ranges_disjoint (secs : list (nat * nat)) :
  StronglySorted (fun s t => snd s <= fst t) secs ->
  forall r s t, In s secs -> In t secs ->
                in_section r s -> in_section r t -> s = t.
Proof.
  unfold in_section.
  induction 1 as [|a l Hl IH Ha]; intros r s t Hs Ht Hrs Hrt; [contradiction|].
  rewrite Forall_forall in Ha.
  destruct Hs as [<-|Hs], Ht as [<-|Ht].
  - reflexivity.
  - specialize (Ha _ Ht). lia.
  - specialize (Ha _ Hs). lia.
  - now apply (IH r).
Qed.

(** C2.  The segmenter produces one section for each row that
    [is_question_row] accepts.  The sections start at those rows, in row
    order; each runs to the start of the next one and the last one to the
    end of the grid, so each is a non-empty half-open range inside the
    grid; a section ends before any later one starts, so no row lies in
    two of them; every row at or after the first question row lies in a
    section, a row with no question row at or before it lies in none; and
    the lengths of the sections add up to the number of rows from the
    first question row on. *)
Theorem segmenter_partition (df : DataFrame) :
  let secs := sections df in
  let n := df_len df in
  List.length secs = List.length (filter is_question_row (rows df))
  /\ (forall b, In b (map fst secs) <->
                b < n /\ is_question_row (iloc df b) = true)
  /\ (forall i, i < List.length secs ->
        snd (nth i secs (0, 0)) =
          if Nat.ltb (i + 1) (List.length secs)
          then fst (nth (i + 1) secs (0, 0)) else n)
  /\ (forall sec, In sec secs -> fst sec < snd sec /\ snd sec <= n)
  /\ StronglySorted (fun s t => snd s <= fst t) secs
  /\ (forall r s t, In s secs -> In t secs ->
                    in_section r s -> in_section r t -> s = t)
  /\ (forall r, r < n ->
        (exists q, q <= r /\ is_question_row (iloc df q) = true) ->
        exists sec, In sec secs /\ in_section r sec)
  /\ (forall r, (forall q, q <= r -> is_question_row (iloc df q) = false) ->
        forall sec, In sec secs -> ~ in_section r sec)
  /\ list_sum (map section_length secs) = n - hd n (map fst secs).
Proof.
  intros secs n.
  pose proof (question_boundaries_increasing df) as Hinc. fold n in Hinc.
  assert (Hsecs : secs = ranges_of (question_boundaries df) n)
    by apply sections_ranges.
  assert (Hstarts : map fst secs = question_boundaries df)
    by (rewrite Hsecs; apply ranges_of_starts).
  assert (Hord : StronglySorted (fun s t => snd s <= fst t) secs)
    by (rewrite Hsecs; now apply ranges_of_ordered).
  split; [|split; [|split; [|split; [|split; [|split; [|split; [|split]]]]]]].
  - unfold secs. rewrite sections_length, question_boundaries_from.
    apply boundaries_from_length.
  - intros b. rewrite Hstarts. apply question_boundaries_In.
  - intros i Hi. unfold secs in *. rewrite sections_length in *.
    rewrite sections_nth by exact Hi. cbn [snd]. unfold question_end_of.
    destruct (Nat.ltb_spec (i + 1) (List.length (question_boundaries df)));
      [|reflexivity].
    now rewrite sections_nth.
  - intros sec Hin. rewrite Hsecs in Hin.
    now apply (ranges_of_bounds n _ Hinc).
  - exact Hord.
  - now apply ordered_ranges_disjoint.
  - intros r Hr (q & Hqr & Hq). rewrite Hsecs.
    apply (ranges_of_cover n _ Hinc r Hr).
    assert (Hin : In q (question_boundaries df)).
    { apply question_boundaries_In. split; [unfold n in *; lia | exact Hq]. }
    pose proof (increasing_below_hd n _ q Hinc Hin). lia.
  - intros r Hnone sec Hin [Hlo _].
    assert (Hb : In (fst sec) (question_boundaries df))
      by (rewrite <- Hstarts; now apply in_map).
    apply question_boundaries_In in Hb as [_ Hq].
    rewrite (Hnone _ Hlo) in Hq. discriminate.
  - rewrite Hstarts, Hsecs. now apply ranges_of_total.
Qed.

End Segmenter.

(** ** Header reconciler *)

Section Reconciler.

Lemma collect_fold (rs : list row) : forall hs ds,
  fst (fold_left collect_step rs (hs, ds))
    = (hs ++ map clean_cells (filter is_header_row rs))%list.
Proof.
  induction rs as [|r rs IH]; intros hs ds; cbn [fold_left filter map].
  - now rewrite app_nil_r.
  - unfold collect_step at 2. destruct (is_header_row r).
    + rewrite IH. cbn [map]. now rewrite <- app_assoc.
    + destruct (is_data_row r); [|apply IH].
      destruct (existsb truthy (clean_cells r)); apply IH.
Qed.

(** The flagged rows are collected cleaned and in row order. *)
Lemma all_header_rows_flagged (df : DataFrame) (qs qe : nat) :
  all_header_rows df qs qe = map clean_cells (flagged_rows df qs qe).
Proof. unfold all_header_rows, collect. now rewrite collect_fold. Qed.

Lemma is_header_row_nonempty (r : row) :
  is_header_row r = true -> nonempty (clean_cells r) = true.
Proof. destruct r; [discriminate | reflexivity]. Qed.

Lemma has_marker_cell_nonempty (r : row) :
  has_marker_cell r = true -> nonempty (clean_cells r) = true.
Proof. destruct r; [discriminate | reflexivity]. Qed.

Lemma all_header_rows_nonempty (df : DataFrame) (qs qe : nat) (h : list string) :
  In h (all_header_rows df qs qe) -> nonempty h = true.
Proof.
  rewrite all_header_rows_flagged. intros Hin.
  apply in_map_iff in Hin as (r & <- & Hr).
  apply filter_In in Hr as [_ Hr]. now apply is_header_row_nonempty.
Qed.

(** The regex of the total test adds nothing to its substring test. *)
Lemma is_total_contains_N_eq (h : list string) :
  is_total h = contains_N_eq h.
Proof.
  unfold is_total, contains_N_eq.
  destruct (contains "N=" (join " " h)) eqn:E; [reflexivity|].
  destruct (Re.sample_size_marker (join " " h)) eqn:M; [|reflexivity].
  apply marker_contains_N_eq in M. congruence.
Qed.

Lemma find_last_snoc {A : Type} (P : A -> bool) (l : list A) (a : A) :
  find_last P (l ++ [a]) = if P a then Some a else find_last P l.
Proof. unfold find_last. now rewrite rev_app_distr. Qed.

Lemma find_last_In {A : Type} (P : A -> bool) (l : list A) (a : A) :
  find_last P l = Some a -> In a l /\ P a = true.
Proof.
  unfold find_last. intros H. apply find_some in H as [Hin HP].
  split; [now apply in_rev | exact HP].
Qed.

(** The loop keeps, for each of its two tests, the last row that passes. *)
Lemma scan_headers_last (hs : list (list string)) :
  scan_headers hs = (find_last is_descriptive hs, find_last is_total hs).
Proof.
  induction hs as [|h hs IH] using rev_ind; [reflexivity|].
  unfold scan_headers in *. rewrite fold_left_app, IH. cbn [fold_left].
  unfold scan_step. cbn [fst snd]. now rewrite !find_last_snoc.
Qed.

Lemma append_if_found_nonempty (x : option (list string)) :
  (forall l, x = Some l -> nonempty l = true) ->
  append_if_found x = opt_list x.
Proof.
  destruct x as [l|]; [|reflexivity]. intros H. cbn.
  now rewrite (H l eq_refl).
Qed.

Lemma find_append {A : Type} (P : A -> bool) (l1 l2 : list A) :
  find P (l1 ++ l2) =
    match find P l1 with Some a => Some a | None => find P l2 end.
Proof.
  induction l1 as [|a l1 IH]; [reflexivity|]. cbn [app find].
  now destruct (P a).
Qed.

Lemma find_pointwise {A : Type} (P Q : A -> bool) (l : list A) :
  (forall a, P a = Q a) -> find P l = find Q l.
Proof.
  intros H. induction l as [|a l IH]; [reflexivity|]. cbn [find].
  now rewrite H, IH.
Qed.

Lemma search_marker_find (rs : list row) :
  search_marker rs = option_map clean_cells (find has_marker_cell rs).
Proof.
  induction rs as [|r rs IH]; [reflexivity|]. cbn [search_marker find].
  now destruct (has_marker_cell r).
Qed.

Lemma search_marker_nonempty (rs : list row) (th : list string) :
  search_marker rs = Some th -> nonempty th = true.
Proof.
  induction rs as [|r rs IH]; [discriminate|]. cbn [search_marker].
  destruct (has_marker_cell r) eqn:E; [|exact IH].
  intros [= <-]. now apply has_marker_cell_nonempty.
Qed.

(** A row found by the scan of the flagged rows is kept: the fallback
    searches run only when there is none. *)
Lemma total_headers_of_scanned (df : DataFrame) (qs qe : nat) (th : list string) :
  nonempty th = true ->
  total_headers_of df qs qe (Some th) = Some th.
Proof.
  intros H. unfold total_headers_of. cbv zeta. cbn [found].
  rewrite H. cbn [negb found]. rewrite H. reflexivity.
Qed.

Lemma total_headers_of_fallback (df : DataFrame) (qs qe : nat) :
  total_headers_of df qs qe None =
    option_map clean_cells (find has_marker_cell (fallback_candidates df qs qe)).
Proof.
  unfold total_headers_of, fallback_candidates. cbn [found negb Nat.max].
  rewrite find_append, !search_marker_find.
  destruct (find has_marker_cell (rows_in df (qs + 1) qe)) as [r|] eqn:E.
  - cbn [option_map found].
    apply find_some in E as [_ E].
    now rewrite (has_marker_cell_nonempty _ E).
  - cbn [option_map found negb].
    now destruct (find has_marker_cell (rows_in df (qs - 6) qs)).
Qed.

Lemma sample_size_header_nonempty (df : DataFrame) (qs qe : nat) (th : list string) :
  sample_size_header_of df qs qe = Some th -> nonempty th = true.
Proof.
  unfold sample_size_header_of, scanned_total_of.
  rewrite scan_headers_last. cbn [snd].
  destruct (find_last is_total (all_header_rows df qs qe)) as [t|] eqn:E.
  - apply find_last_In in E as [Hin _].
    apply all_header_rows_nonempty in Hin.
    rewrite total_headers_of_scanned by exact Hin. now intros [= <-].
  - rewrite total_headers_of_fallback, <- search_marker_find.
    apply search_marker_nonempty.
Qed.

Lemma header_rows_of_flagged (df : DataFrame) (qs qe : nat) :
  all_header_rows df qs qe <> [] ->
  header_rows_of df qs qe =
    (opt_list (descriptive_headers_of df qs qe)
     ++ opt_list (sample_size_header_of df qs qe))%list.
Proof.
  intros Hne. unfold header_rows_of.
  destruct (all_header_rows df qs qe) as [|h hs] eqn:E; [contradiction|].
  cbn [nonempty]. rewrite <- E.
  assert (Hd : append_if_found (descriptive_headers_of df qs qe)
               = opt_list (descriptive_headers_of df qs qe)).
  { apply append_if_found_nonempty. intros l Hl.
    unfold descriptive_headers_of in Hl. rewrite scan_headers_last in Hl.
    apply find_last_In in Hl as [Hin _].
    now apply all_header_rows_nonempty in Hin. }
  assert (Ht : append_if_found (sample_size_header_of df qs qe)
               = opt_list (sample_size_header_of df qs qe)).
  { apply append_if_found_nonempty. apply sample_size_header_nonempty. }
  rewrite <- Hd, <- Ht.
  unfold descriptive_headers_of, sample_size_header_of, scanned_total_of.
  now destruct (scan_headers (all_header_rows df qs qe)).
Qed.

(** C3, as the spec words it, fails: of two flagged rows, the first with
    [N=100] and the second with [N=TBD], the last one with a marker
    [N=<digits>] is the first, and the reconciler takes the second as the
    sample-size header. *)
Lemma sample_size_header_not_last_marker :
  let hs := all_header_rows Samples.two_totals 0 3 in
  hs = [["Total (A)"; "N=100"]; ["Total (A)"; "N=TBD"]]
  /\ find_last has_marker_text hs = Some ["Total (A)"; "N=100"]
  /\ sample_size_header_of Samples.two_totals 0 3 = Some ["Total (A)"; "N=TBD"]
  /\ header_rows_of Samples.two_totals 0 3
      = [["Total (A)"; "N=TBD"]; ["Total (A)"; "N=TBD"]].
Proof. repeat split. Qed.

(** C3, amended.  In a section with a flagged row, the flagged rows are
    collected cleaned and in row order; the descriptive header is the last
    of them whose joined text contains [Total (A)] or a group label; the
    scan takes for the sample-size header the last of them whose joined
    text contains the two characters [N=], digits after them or not, and
    a row it takes stays the sample-size header; the header set is the
    descriptive header, if there is one, then the sample-size header, if
    there is one. *)
Theorem reconciler_selection (df : DataFrame) (qs qe : nat) :
  all_header_rows df qs qe <> [] ->
  let hs := all_header_rows df qs qe in
  hs = map clean_cells (flagged_rows df qs qe)
  /\ descriptive_headers_of df qs qe = find_last is_descriptive hs
  /\ scanned_total_of df qs qe = find_last contains_N_eq hs
  /\ (forall th, find_last contains_N_eq hs = Some th ->
                 sample_size_header_of df qs qe = Some th)
  /\ header_rows_of df qs qe =
      (opt_list (descriptive_headers_of df qs qe)
       ++ opt_list (sample_size_header_of df qs qe))%list.
Proof.
  intros Hne hs.
  assert (Hscan : scanned_total_of df qs qe = find_last contains_N_eq hs).
  { unfold scanned_total_of. rewrite scan_headers_last. cbn [snd].
    unfold find_last. apply find_pointwise. intros h.
    apply is_total_contains_N_eq. }
  split; [apply all_header_rows_flagged|].
  split; [unfold descriptive_headers_of; now rewrite scan_headers_last|].
  split; [exact Hscan|].
  split; [|now apply header_rows_of_flagged].
  intros th Hth. unfold sample_size_header_of. rewrite Hscan, Hth.
  apply total_headers_of_scanned.
  apply find_last_In in Hth as [Hin _].
  now apply (all_header_rows_nonempty df qs qe).
Qed.

Lemma reconciler_selection_witness :
  header_rows_of Samples.two_totals 0 3
  = (opt_list (descriptive_headers_of Samples.two_totals 0 3)
     ++ opt_list (sample_size_header_of Samples.two_totals 0 3))%list.
Proof.
  assert (H : all_header_rows Samples.two_totals 0 3 <> []) by discriminate.
  exact (proj2 (proj2 (proj2 (proj2
           (reconciler_selection Samples.two_totals 0 3 H))))).
Defined.

(** C4, as the spec words it, fails: in a section without a flagged row
    no fallback search runs, and the row with [N=100] of the section is
    not made the sample-size header. *)
Lemma no_fallback_without_flagged_row :
  sections Samples.unflagged_base = [(0, 3)]
  /\ all_header_rows Samples.unflagged_base 0 3 = []
  /\ find has_marker_cell (rows_in Samples.unflagged_base 1 3)
      = Some ["Base"; "N=100"]
  /\ header_rows_of Samples.unflagged_base 0 3 = [].
Proof. repeat split. Qed.

(** Without a flagged row the reconciler builds no header set: the scan
    and the two fallback searches all stand under [if all_header_rows:]. *)
Lemma no_flagged_no_header (df : DataFrame) (qs qe : nat) :
  all_header_rows df qs qe = [] -> header_rows_of df qs qe = [].
Proof. unfold header_rows_of. now intros ->. Qed.

(** C4, amended.  In a section with a flagged row of which none has [N=]
    in its joined text, the sample-size header is the first row with a
    cell that has a marker [N=<digits>], cleaned, among the rows of the
    section after the question row and then the rows at the (at most six)
    positions before the question row, each group in row order; without
    such a row there is no sample-size header.  In a section without a
    flagged row no fallback search runs and the header set is empty,
    whatever markers its rows hold. *)
Theorem fallback_search (df : DataFrame) (qs qe : nat) :
  (all_header_rows df qs qe <> [] ->
   (forall h, In h (all_header_rows df qs qe) -> contains_N_eq h = false) ->
   sample_size_header_of df qs qe =
     option_map clean_cells (find has_marker_cell (fallback_candidates df qs qe))
   /\ List.length (rows_in df (qs - 6) qs) <= 6
   /\ header_rows_of df qs qe =
       (opt_list (descriptive_headers_of df qs qe)
        ++ opt_list (option_map clean_cells
                       (find has_marker_cell (fallback_candidates df qs qe))))%list)
  /\ (all_header_rows df qs qe = [] -> header_rows_of df qs qe = []).
Proof.
  split; [|apply no_flagged_no_header].
  intros Hne Hnone.
  assert (Hs : sample_size_header_of df qs qe =
               option_map clean_cells
                 (find has_marker_cell (fallback_candidates df qs qe))).
  { unfold sample_size_header_of, scanned_total_of.
    rewrite scan_headers_last. cbn [snd].
    destruct (find_last is_total (all_header_rows df qs qe)) as [t|] eqn:E.
    - apply find_last_In in E as [Hin Ht].
      rewrite is_total_contains_N_eq, (Hnone _ Hin) in Ht. discriminate.
    - apply total_headers_of_fallback. }
  split; [exact Hs|]. split.
  - unfold rows_in, range. rewrite length_map, length_seq. lia.
  - rewrite <- Hs. now apply header_rows_of_flagged.
Qed.

Lemma fallback_search_witness :
  sample_size_header_of Samples.base_above 1 4 = Some ["Base"; "N=250"]
  /\ header_rows_of Samples.base_above 1 4
     = [["Total (A)"; "Pro-to-Pro Switchers (B)"]; ["Base"; "N=250"]]
  /\ header_rows_of Samples.unflagged_base 0 3 = [].
Proof.
  assert (H1 : all_header_rows Samples.base_above 1 4 <> []) by discriminate.
  assert (H2 : forall h, In h (all_header_rows Samples.base_above 1 4) ->
                         contains_N_eq h = false).
  { intros h [<-|[]]. reflexivity. }
  destruct (proj1 (fallback_search Samples.base_above 1 4) H1 H2)
    as (Hs & _ & Hh).
  split; [exact Hs|]. split; [exact Hh|].
  exact (proj2 (fallback_search Samples.unflagged_base 0 3) eq_refl).
Defined.

(** The question row of a section is not among the rows the fallback goes
    through. *)
Lemma question_row_not_scanned :
  let df := Samples.marker_in_question_row in
  sections df = [(0, 3)]
  /\ has_marker_cell (iloc df 0) = true
  /\ sample_size_header_of df 0 3 = None
  /\ header_rows_of df 0 3 = [["Total (A)"; "Pro-to-Pro Switchers (B)"]].
Proof. repeat split. Qed.

End Reconciler.

(** ** Table renderer and document assembler *)

Section Assembler.

(** C8, as the spec words it, fails: the document of a grid without rows
    is the title and the placeholder; it has no summary and reports no
    count of questions. *)
Lemma empty_grid_without_summary :
  let doc := format_survey_csv_to_markdown Samples.no_rows "survey.csv" in
  doc = "# survey.csv" ++ nl ++ nl ++ "*This file is empty.*" ++ nl
  /\ contains "## Summary" doc = false
  /\ contains "Total Questions Processed" doc = false.
Proof. repeat split. Qed.

(** C8, amended.  For a grid with zero rows the conversion returns a
    document, which is the line of the file name as given, an empty line
    and the placeholder text for an empty source, and nothing else: no
    summary follows. *)
Theorem empty_grid_document (df : DataFrame) (filename : string) :
  rows df = [] ->
  format_survey_csv_to_markdown df filename
    = "# " ++ filename ++ nl ++ nl ++ "*This file is empty.*" ++ nl
  /\ contains "*This file is empty.*"
              (format_survey_csv_to_markdown df filename) = true.
Proof.
  intros Hrows. unfold format_survey_csv_to_markdown, df_empty, df_len.
  rewrite Hrows. cbn [List.length Nat.eqb orb]. split; [reflexivity|].
  apply (contains_append_r _ "# "), contains_append_r.
  apply (contains_append_r _ nl), (contains_append_r _ nl).
  apply contains_append_l, contains_refl.
Qed.

Lemma empty_grid_document_witness :
  format_survey_csv_to_markdown Samples.no_rows "survey.csv"
  = "# survey.csv" ++ nl ++ nl ++ "*This file is empty.*" ++ nl.
Proof.
  exact (proj1 (empty_grid_document Samples.no_rows "survey.csv" eq_refl)).
Defined.

(** A grid with rows and no question row gets the full frame, with a
    count of zero. *)
Lemma no_question_document (df : DataFrame) (filename : string) :
  df_empty df = false ->
  sections df = [] ->
  format_survey_csv_to_markdown df filename
    = document_head df filename ++ summary 0 filename.
Proof.
  intros He Hs. unfold format_survey_csv_to_markdown, process_sections.
  now rewrite He, Hs.
Qed.

(** C6, as the spec words it, fails: the only section of this grid has no
    header and no data row; the document has no placeholder for it and
    counts no question. *)
Lemma empty_section_dropped :
  let df := Samples.lone_question in
  let doc := format_survey_csv_to_markdown df "survey.csv" in
  sections df = [(0, 1)]
  /\ header_rows_of df 0 1 = []
  /\ section_data df 0 1 = []
  /\ contains no_data_text doc = false
  /\ contains "### Question" doc = false
  /\ fst (process_sections df "survey.csv") = 0.
Proof. repeat split. Qed.

(** C6, amended.  A section whose header set is empty and that has no
    data row is skipped by the document assembler: the question count and
    the document are left as they were, so the section is neither counted
    nor rendered.  The placeholder text belongs to the table renderer,
    which gives it when it is called with no header row and no data
    row. *)
Theorem empty_section_skipped (df : DataFrame) (st : nat * string) (qs qe : nat) :
  header_rows_of df qs qe = [] ->
  section_data df qs qe = [] ->
  process_section df st (qs, qe) = st
  /\ forall n q,
       format_question_section n q (header_rows_of df qs qe) (section_data df qs qe)
       = section_heading n q ++ no_data_text ++ nl ++ nl.
Proof.
  intros Hh Hd. split.
  - unfold process_section. destruct st as [k c]. now rewrite Hh, Hd.
  - intros n q. now rewrite Hh, Hd.
Qed.

Lemma empty_section_skipped_witness :
  process_section Samples.lone_question (0, "head") (0, 1) = (0, "head").
Proof.
  exact (proj1 (empty_section_skipped Samples.lone_question (0, "head") 0 1
                  eq_refl eq_refl)).
Defined.

(** C7, as the spec words it, fails: a section with a header row and no
    data row is rendered as its heading and question text; neither the
    header row nor the separator row is emitted. *)
Lemma header_without_data_has_no_table :
  let df := Samples.header_only in
  let doc := format_survey_csv_to_markdown df "survey.csv" in
  header_rows_of df 0 2 = [["Total (A)"; "Pro-to-Pro Switchers (B)"]]
  /\ section_data df 0 2 = []
  /\ format_question_section 1 "Q1: Which plan?" (header_rows_of df 0 2) []
      = section_heading 1 "Q1: Which plan?"
  /\ contains (section_heading 1 "Q1: Which plan?") doc = true
  /\ contains "---" doc = false
  /\ contains "| Total (A) |" doc = false.
Proof. repeat split. Qed.

(** C7, amended.  For a non-empty header set and at least one data row,
    the renderer emits, after the heading of the section and the line
    [#### Response Data], the header row made of the first entry of the
    header set and then the separator row with one [---|] for each of its
    cells.  With no data row it emits the heading of the section and no
    table row. *)
Theorem header_and_separator_rows (n : nat) (q : string)
    (primary : list string) (others data_rows : list (list string)) :
  data_rows <> [] ->
  (exists body,
      format_question_section n q (primary :: others) data_rows
      = section_heading n q ++ "#### Response Data" ++ nl ++ nl
        ++ ("| " ++ join " | " primary ++ " |" ++ nl)
        ++ ("|" ++ repeat_str "---|" (List.length primary) ++ nl)
        ++ body)
  /\ format_question_section n q (primary :: others) [] = section_heading n q.
Proof.
  intros Hd. split; [|reflexivity].
  destruct data_rows as [|d ds]; [contradiction|].
  eexists. unfold format_question_section.
  cbn [nonempty negb andb table_headers_of].
  unfold header_line, separator_line, table_line.
  rewrite !append_assoc. reflexivity.
Qed.

Lemma header_and_separator_rows_witness :
  (exists body,
      format_question_section 1 "Q1: Which plan?"
        [["Total (A)"; "Pro-to-Pro Switchers (B)"]] [["Yes"; "60%"]]
      = section_heading 1 "Q1: Which plan?" ++ "#### Response Data" ++ nl ++ nl
        ++ ("| " ++ join " | " ["Total (A)"; "Pro-to-Pro Switchers (B)"]
            ++ " |" ++ nl)
        ++ ("|" ++ repeat_str "---|" 2 ++ nl)
        ++ body)
  /\ format_question_section 1 "Q1: Which plan?"
       [["Total (A)"; "Pro-to-Pro Switchers (B)"]] []
     = section_heading 1 "Q1: Which plan?".
Proof.
  assert (H : [["Yes"; "60%"]] <> []) by discriminate.
  exact (header_and_separator_rows 1 "Q1: Which plan?"
           ["Total (A)"; "Pro-to-Pro Switchers (B)"] []
           [["Yes"; "60%"]] H).
Defined.

(** The scenario of the tea question: the [Total] row with [N=100] is
    flagged, it is no descriptive header and it is the sample-size header,
    so it heads the table. *)
Example tea_document :
  header_rows_of Samples.tea 0 4 = [["Total"; "N=100"]]
  /\ descriptive_headers_of Samples.tea 0 4 = None
  /\ section_data Samples.tea 0 4 = [["Yes"; "60%"]; ["No"; "40%"]]
  /\ format_survey_csv_to_markdown Samples.tea "tea_survey.csv"
     = "# Tea Survey" ++ nl ++ nl
       ++ "**Total Records:** 4  " ++ nl
       ++ "**Total Columns:** 2  " ++ nl
       ++ "**Generated:** October 28, 2025  " ++ nl ++ nl
       ++ "## Survey Questions and Responses" ++ nl ++ nl
       ++ "### Question 1" ++ nl ++ nl
       ++ "**Q1: Do you like tea?**" ++ nl ++ nl
       ++ "#### Response Data" ++ nl ++ nl
       ++ "| Total | N=100 |" ++ nl
       ++ "|---|---|" ++ nl
       ++ "| Yes | 60% |" ++ nl
       ++ "| No | 40% |" ++ nl ++ nl
       ++ "## Summary" ++ nl ++ nl
       ++ "**Total Questions Processed:** 1  " ++ nl
       ++ "**Source File:** tea_survey.csv  " ++ nl.
Proof. repeat split. Qed.

End Assembler.

(** ** Table rows read back *)

Section TableRows.

Lemma pieces_positive (s : string) : 1 <= pieces s.
Proof.
  unfold pieces. induction s as [|c t IH]; [cbn; lia|].
  cbn [split_unescaped].
  destruct (Ascii.eqb c "|"); [cbn; lia|].
  assert (Hp : forall a l, 1 <= List.length (push_char a l))
    by (intros a [|x l]; cbn; lia).
  destruct (Ascii.eqb c "\"); [|apply Hp].
  destruct t as [|d t']; [apply Hp|].
  destruct (Ascii.eqb d "|"); apply Hp.
Qed.

Lemma push_char_length (c : ascii) (l : list string) :
  1 <= List.length l -> List.length (push_char c l) = List.length l.
Proof. destruct l; cbn; [lia | reflexivity]. Qed.

Lemma pieces_pipe (t : string) : pieces (String "|" t) = S (pieces t).
Proof. reflexivity. Qed.

Lemma pieces_escaped_pipe (t : string) :
  pieces (String "\" (String "|" t)) = pieces t.
Proof.
  unfold pieces. cbn [split_unescaped Ascii.eqb Bool.eqb].
  rewrite !push_char_length; try reflexivity.
  - apply pieces_positive.
  - rewrite push_char_length; apply pieces_positive.
Qed.

(** A character that is no pipe and has no pipe right after it opens no
    new piece. *)
Lemma pieces_plain (c : ascii) (t : string) :
  Ascii.eqb c "|" = false ->
  starts_with_pipe t = false ->
  pieces (String c t) = pieces t.
Proof.
  intros Hc Ht. unfold pieces. cbn [split_unescaped]. rewrite Hc.
  destruct (Ascii.eqb c "\").
  - destruct t as [|d t']; [reflexivity|].
    cbn [starts_with_pipe] in Ht. rewrite Ht.
    apply push_char_length, (pieces_positive (String d t')).
  - apply push_char_length, pieces_positive.
Qed.

(** A character other than pipe and backslash opens no new piece. *)
Lemma pieces_other (c : ascii) (t : string) :
  Ascii.eqb c "|" = false ->
  Ascii.eqb c "\" = false ->
  pieces (String c t) = pieces t.
Proof.
  intros Hc Hb. unfold pieces. cbn [split_unescaped]. rewrite Hc, Hb.
  apply push_char_length, pieces_positive.
Qed.

Lemma clean_cell_cons (a : ascii) (c : string) :
  clean_cell (String a c) =
    if Ascii.eqb a "|" then String "\" (String "|" (clean_cell c))
    else if Ascii.eqb a "010" then String " " (clean_cell c)
    else String a (clean_cell c).
Proof.
  unfold clean_cell. cbn [replace_char].
  destruct (Ascii.eqb a "|"); [reflexivity|].
  cbn [replace_char]. now destruct (Ascii.eqb a "010").
Qed.

(** A cleaned cell starts with no pipe. *)
Lemma clean_cell_start (c rest : string) :
  starts_with_pipe rest = false ->
  starts_with_pipe (clean_cell c ++ rest) = false.
Proof.
  intros Hr. destruct c as [|a c]; [exact Hr|].
  rewrite clean_cell_cons.
  destruct (Ascii.eqb a "|") eqn:Ea; [reflexivity|].
  destruct (Ascii.eqb a "010"); [reflexivity | exact Ea].
Qed.

(** A cleaned cell adds no piece to the line it stands in. *)
Lemma clean_cell_adds_no_piece (c : string) : adds_no_piece (clean_cell c).
Proof.
  intros rest Hr. induction c as [|a c IH]; [reflexivity|].
  rewrite clean_cell_cons.
  destruct (Ascii.eqb a "|") eqn:Ea.
  - cbn [append]. now rewrite pieces_escaped_pipe.
  - destruct (Ascii.eqb a "010") eqn:En; cbn [append].
    + rewrite pieces_other by reflexivity. exact IH.
    + rewrite pieces_plain; [exact IH | exact Ea | now apply clean_cell_start].
Qed.

Lemma contains_pipe_cons (a : ascii) (c : string) :
  contains "|" (String a c) = false ->
  Ascii.eqb a "|" = false /\ contains "|" c = false.
Proof.
  cbn [contains prefix]. intros H. apply orb_false_iff in H as [Hp Hc].
  split; [|exact Hc].
  destruct (ascii_dec "|" a) as [<-|Hne].
  - now destruct c.
  - apply Ascii.eqb_neq. congruence.
Qed.

(** So does a cell without a pipe. *)
Lemma pipe_free_adds_no_piece (c : string) :
  contains "|" c = false -> adds_no_piece c.
Proof.
  intros Hc rest Hr. induction c as [|a c IH]; [reflexivity|].
  apply contains_pipe_cons in Hc as [Ha Hc]. cbn [append].
  rewrite pieces_plain; [now apply IH | exact Ha |].
  destruct c as [|b c]; [exact Hr|].
  now apply contains_pipe_cons in Hc as [Hb _].
Qed.

Lemma pieces_joined (tail : string) (cells : list string) :
  starts_with_pipe tail = false ->
  Forall adds_no_piece cells ->
  forall c, adds_no_piece c ->
    pieces (join " | " (c :: cells) ++ tail) = List.length cells + pieces tail.
Proof.
  intros Ht. induction 1 as [|c' cells Hc' Hcells IH]; intros c Hc.
  - cbn [join concat]. now rewrite Hc.
  - change (join " | " (c :: c' :: cells))
      with (c ++ " | " ++ join " | " (c' :: cells)).
    rewrite !append_assoc, Hc by reflexivity.
    change (" | " ++ ?x) with (String " " (String "|" (String " " x))).
    rewrite pieces_other by reflexivity.
    rewrite pieces_pipe, pieces_other by reflexivity.
    rewrite IH by exact Hc'. reflexivity.
Qed.

Lemma table_fields_length (line : string) :
  List.length (table_fields line) = pieces line - 2.
Proof.
  unfold table_fields, pieces.
  destruct (split_unescaped line) as [|x [|y l]]; try reflexivity.
  cbn [tl]. rewrite removelast_firstn_len, length_firstn. cbn [List.length]. lia.
Qed.

(** A line of cells that add no piece has one field for each cell. *)
Lemma table_line_fields (cells : list string) :
  cells <> [] ->
  Forall adds_no_piece cells ->
  List.length (table_fields (table_line cells)) = List.length cells.
Proof.
  intros Hne Hcells. rewrite table_fields_length. unfold table_line.
  destruct cells as [|c cells]; [contradiction|].
  change ("| " ++ ?x) with (String "|" (String " " x)).
  rewrite pieces_pipe, pieces_other by reflexivity.
  inversion Hcells as [|? ? Hc Hrest]; subst.
  rewrite pieces_joined by (reflexivity || assumption).
  cbn [List.length]. change (pieces (" |" ++ nl)) with 2. lia.
Qed.

Lemma padded_width (n : nat) (r : list string) :
  List.length (firstn n (pad_to n r)) = n.
Proof.
  unfold pad_to. rewrite length_firstn, length_app, repeat_length. lia.
Qed.

(** X17.  A data row has as many fields as the table has columns, whatever
    pipes, backslashes and line feeds its cells hold. *)
Lemma data_line_fields (table_headers data_row : list string) :
  table_headers <> [] ->
  List.length (table_fields (data_line table_headers data_row))
    = List.length table_headers.
Proof.
  intros Hne. unfold data_line. rewrite table_line_fields.
  - now rewrite length_map, padded_width.
  - intros E. apply (f_equal (@List.length string)) in E.
    rewrite length_map, padded_width in E.
    destruct table_headers; [contradiction|discriminate].
  - apply Forall_forall. intros c Hin.
    apply in_map_iff in Hin as (c0 & <- & _). apply clean_cell_adds_no_piece.
Qed.

(** X18.  A header row has as many fields as cells as long as no cell has a
    pipe in it. *)
Lemma header_line_fields (table_headers : list string) :
  table_headers <> [] ->
  Forall (fun cell => contains "|" cell = false) table_headers ->
  List.length (table_fields (header_line table_headers))
    = List.length table_headers.
Proof.
  intros Hne Hfree. apply table_line_fields; [exact Hne|].
  apply Forall_impl with (2 := Hfree). exact pipe_free_adds_no_piece.
Qed.

(** C5 on the header row: a header cell is written as it is, so a pipe in
    it cuts the header row into more fields than the table has columns;
    the separator row and the data row of the same table have two. *)
Theorem header_row_pipe_not_escaped :
  let df := Samples.piped_header in
  let primary := ["Total (A) | all"; "Pro-to-Pro Switchers (B)"] in
  header_rows_of df 0 3 = [primary]
  /\ section_data df 0 3 = [["Yes"; "60%"]]
  /\ List.length (table_headers_of [primary] [["Yes"; "60%"]]) = 2
  /\ header_line primary
      = "| Total (A) | all | Pro-to-Pro Switchers (B) |" ++ nl
  /\ table_fields (header_line primary)
      = [" Total (A) "; " all "; " Pro-to-Pro Switchers (B) "]
  /\ table_fields (data_line primary ["Yes"; "60%"]) = [" Yes "; " 60% "]
  /\ contains (header_line primary ++ separator_line primary)
              (format_survey_csv_to_markdown df "survey.csv") = true.
Proof. repeat split. Qed.

End TableRows.

(** ** Rendered sections in the document *)

Section Document.

Variable df : DataFrame.

Lemma process_section_extends (st : nat * string) (sec : nat * nat) :
  exists tail, snd (process_section df st sec) = snd st ++ tail.
Proof.
  destruct st as [k c], sec as [qs qe]. unfold process_section.
  destruct (nonempty (header_rows_of df qs qe) || nonempty (section_data df qs qe)).
  - eexists. reflexivity.
  - exists "". cbn [snd]. now rewrite append_empty_r.
Qed.

Lemma process_sections_extend (secs : list (nat * nat)) : forall st,
  exists tail, snd (fold_left (process_section df) secs st) = snd st ++ tail.
Proof.
  induction secs as [|sec secs IH]; intros st; cbn [fold_left].
  - exists "". now rewrite append_empty_r.
  - destruct (IH (process_section df st sec)) as [t1 H1].
    destruct (process_section_extends st sec) as [t0 H0].
    exists (t0 ++ t1). now rewrite H1, H0, append_assoc.
Qed.

(** A section with a header row or a data row is passed to the renderer,
    and what the renderer returns for it is part of the content. *)
Lemma rendered_section_kept (secs : list (nat * nat)) (qs qe : nat) :
  In (qs, qe) secs ->
  nonempty (header_rows_of df qs qe) || nonempty (section_data df qs qe) = true ->
  forall st, exists k before after,
    snd (fold_left (process_section df) secs st)
    = before ++ rendering df k qs qe ++ after.
Proof.
  intros Hin Hne. induction secs as [|sec secs IH]; [contradiction|].
  intros st. cbn [fold_left]. destruct Hin as [->|Hin]; [|now apply IH].
  destruct (process_sections_extend secs (process_section df st (qs, qe)))
    as [tail Ht].
  destruct st as [k c]. exists (k + 1), c, tail.
  rewrite Ht. unfold process_section. rewrite Hne. cbn [snd].
  now rewrite append_assoc.
Qed.

Lemma rendered_section_in_document (filename : string) (qs qe : nat) :
  df_empty df = false ->
  In (qs, qe) (sections df) ->
  nonempty (header_rows_of df qs qe) || nonempty (section_data df qs qe) = true ->
  exists k before after,
    format_survey_csv_to_markdown df filename
    = before ++ rendering df k qs qe ++ after.
Proof.
  intros He Hin Hne. unfold format_survey_csv_to_markdown. rewrite He.
  destruct (rendered_section_kept _ qs qe Hin Hne (0, document_head df filename))
    as (k & before & after & H).
  fold (process_sections df filename) in H.
  destruct (process_sections df filename) as [n c]. cbn [snd] in H.
  exists k, before, (after ++ summary n filename).
  now rewrite H, !append_assoc.
Qed.

(** X23.  The header row and the separator row of a section with a header set
    and a data row stand in the document, one after the other. *)
Lemma table_head_in_document (filename : string) (qs qe : nat)
    (primary : list string) (others : list (list string)) :
  df_empty df = false ->
  In (qs, qe) (sections df) ->
  header_rows_of df qs qe = primary :: others ->
  section_data df qs qe <> [] ->
  contains (header_line primary ++ separator_line primary)
           (format_survey_csv_to_markdown df filename) = true.
Proof.
  intros He Hin Hh Hd.
  destruct (rendered_section_in_document filename qs qe He Hin)
    as (k & before & after & H); [now rewrite Hh|].
  rewrite H. unfold rendering, format_question_section. rewrite Hh.
  destruct (section_data df qs qe) as [|d ds]; [contradiction|].
  cbn [nonempty negb andb table_headers_of].
  set (content := section_heading k (question_text_of df qs)).
  set (body := secondary_lines primary (primary :: others)
               ++ concat "" (map (data_line primary) (d :: ds)) ++ nl).
  replace (before ++ (content ++ "#### Response Data" ++ nl ++ nl
                      ++ header_line primary ++ separator_line primary ++ body)
           ++ after)
    with ((before ++ content ++ "#### Response Data" ++ nl ++ nl)
          ++ (header_line primary ++ separator_line primary)
          ++ (body ++ after))
    by (now rewrite !append_assoc).
  apply contains_middle.
Qed.

End Document.

(** ** File names *)

Section FileNames.

Variable p : ascii -> bool.

Lemma all_chars_lstrip (q : ascii -> bool) (s : string) :
  all_chars q s = true -> all_chars q (lstrip_chars p s) = true.
Proof.
  induction s as [|c t IH]; [easy|]. cbn [lstrip_chars all_chars].
  intros H. destruct (p c); [|exact H].
  apply andb_true_iff in H as [_ H]. now apply IH.
Qed.

Lemma all_chars_rstrip (q : ascii -> bool) (s : string) :
  all_chars q s = true -> all_chars q (rstrip_chars p s) = true.
Proof.
  induction s as [|c t IH]; [easy|]. cbn [rstrip_chars all_chars].
  intros H. apply andb_true_iff in H as [Hc Ht]. specialize (IH Ht).
  destruct (rstrip_chars p t) as [|d t'].
  - destruct (p c); [reflexivity|]. cbn. now rewrite Hc.
  - cbn [all_chars] in IH |- *. now rewrite Hc, IH.
Qed.

Lemma all_chars_substring (q : ascii -> bool) (m : nat) : forall s,
  all_chars q s = true -> all_chars q (substring 0 m s) = true.
Proof.
  induction m as [|m IH]; intros [|c t] H; try easy.
  cbn [substring all_chars] in *. apply andb_true_iff in H as [Hc Ht].
  now rewrite Hc, IH.
Qed.

Lemma substring_length_le (m : nat) : forall s,
  String.length (substring 0 m s) <= m.
Proof.
  induction m as [|m IH]; intros [|c t]; cbn; try lia.
  specialize (IH t). lia.
Qed.

Lemma lstrip_chars_length (s : string) :
  String.length (lstrip_chars p s) <= String.length s.
Proof.
  induction s as [|c t IH]; [easy|]. cbn [lstrip_chars].
  destruct (p c); cbn [String.length]; lia.
Qed.

Lemma rstrip_chars_length (s : string) :
  String.length (rstrip_chars p s) <= String.length s.
Proof.
  induction s as [|c t IH]; [easy|]. cbn [rstrip_chars].
  destruct (rstrip_chars p t) as [|d t'].
  - destruct (p c); cbn; lia.
  - cbn [String.length] in *. lia.
Qed.

Lemma lstrip_chars_first (s : string) :
  match first_char (lstrip_chars p s) with
  | None => True
  | Some c => p c = false
  end.
Proof.
  induction s as [|c t IH]; [exact I|]. cbn [lstrip_chars].
  destruct (p c) eqn:E; [exact IH | exact E].
Qed.

(** Stripping at the right end leaves the first character where it is. *)
Lemma rstrip_chars_first (s : string) :
  rstrip_chars p s = EmptyString
  \/ first_char (rstrip_chars p s) = first_char s.
Proof.
  destruct s as [|c t]; [now left|]. cbn [rstrip_chars].
  destruct (rstrip_chars p t); [|now right].
  destruct (p c); [now left | now right].
Qed.

Lemma rstrip_chars_last (s : string) :
  match last_char (rstrip_chars p s) with
  | None => True
  | Some c => p c = false
  end.
Proof.
  induction s as [|c t IH]; [exact I|]. cbn [rstrip_chars].
  destruct (rstrip_chars p t) as [|d t'] eqn:E.
  - destruct (p c) eqn:Ec; [exact I | exact Ec].
  - cbn [last_char] in *. destruct (last_char t'); exact IH.
Qed.

Lemma lstrip_chars_id (s : string) :
  match first_char s with None => True | Some c => p c = false end ->
  lstrip_chars p s = s.
Proof. destruct s as [|c t]; [easy|]. cbn. now intros ->. Qed.

Lemma rstrip_chars_id (s : string) :
  match last_char s with None => True | Some c => p c = false end ->
  rstrip_chars p s = s.
Proof.
  induction s as [|c t IH]; [easy|]. cbn [last_char rstrip_chars].
  destruct (last_char t) as [d|] eqn:E.
  - intros H. rewrite (IH H). destruct t; [discriminate | reflexivity].
  - intros H. destruct t as [|e t']; [cbn; now rewrite H|].
    cbn [last_char] in E. destruct (last_char t'); discriminate.
Qed.

End FileNames.

Section Sanitize.

Lemma sub_invalid_chars_length (f : string) :
  String.length (sub_invalid_chars f) = String.length f.
Proof. induction f as [|c t IH]; cbn; congruence. Qed.

Lemma sub_invalid_chars_valid (f : string) :
  all_chars (fun c => negb (is_invalid_char c)) (sub_invalid_chars f) = true.
Proof.
  induction f as [|c t IH]; [reflexivity|]. cbn [sub_invalid_chars all_chars].
  rewrite IH, andb_true_r.
  destruct (is_invalid_char c) eqn:E; [reflexivity | now rewrite E].
Qed.

Lemma sub_invalid_chars_id (f : string) :
  all_chars (fun c => negb (is_invalid_char c)) f = true ->
  sub_invalid_chars f = f.
Proof.
  induction f as [|c t IH]; [easy|]. cbn [sub_invalid_chars all_chars].
  intros H. apply andb_true_iff in H as [Hc Ht].
  apply negb_true_iff in Hc. now rewrite Hc, IH.
Qed.

Lemma strip_chars_length (p : ascii -> bool) (s : string) :
  String.length (strip_chars p s) <= String.length s.
Proof.
  unfold strip_chars.
  pose proof (rstrip_chars_length p (lstrip_chars p s)).
  pose proof (lstrip_chars_length p s). lia.
Qed.

Lemma strip_chars_first (p : ascii -> bool) (s : string) :
  match first_char (strip_chars p s) with
  | None => True
  | Some c => p c = false
  end.
Proof.
  unfold strip_chars.
  destruct (rstrip_chars_first p (lstrip_chars p s)) as [->| ->];
    [exact I | apply lstrip_chars_first].
Qed.

Lemma strip_chars_last (p : ascii -> bool) (s : string) :
  match last_char (strip_chars p s) with
  | None => True
  | Some c => p c = false
  end.
Proof. apply rstrip_chars_last. Qed.

(** Stripping what is stripped changes nothing. *)
Lemma strip_chars_stripped (p : ascii -> bool) (s : string) :
  strip_chars p (strip_chars p s) = strip_chars p s.
Proof.
  unfold strip_chars at 1.
  rewrite lstrip_chars_id by apply strip_chars_first.
  apply rstrip_chars_id, strip_chars_last.
Qed.

Lemma stripped_valid (filename : string) :
  all_chars (fun c => negb (is_invalid_char c))
            (strip_chars dot_or_space (sub_invalid_chars filename)) = true.
Proof. apply all_chars_rstrip, all_chars_lstrip, sub_invalid_chars_valid. Qed.

Lemma stripped_length (filename : string) :
  String.length (strip_chars dot_or_space (sub_invalid_chars filename))
  <= String.length filename.
Proof.
  rewrite <- (sub_invalid_chars_length filename). apply strip_chars_length.
Qed.

(** A name of at most 200 characters is not cut. *)
Lemma sanitize_filename_short (filename : string) :
  String.length filename <= 200 ->
  sanitize_filename filename
  = strip_chars dot_or_space (sub_invalid_chars filename).
Proof.
  intros Hlen. unfold sanitize_filename.
  pose proof (stripped_length filename).
  destruct (Nat.ltb_spec 200
              (String.length (strip_chars dot_or_space (sub_invalid_chars filename))));
    [lia | reflexivity].
Qed.

Lemma substring_first (m : nat) (s : string) :
  first_char (substring 0 (S m) s) = first_char s.
Proof. now destruct s. Qed.

(** X1.  The name [sanitize_filename] returns has none of the characters it is
    there to remove. *)
Theorem sanitize_filename_valid (filename : string) :
  all_chars (fun c => negb (is_invalid_char c)) (sanitize_filename filename) = true.
Proof.
  unfold sanitize_filename.
  pose proof (stripped_valid filename) as H.
  destruct (Nat.ltb 200 _); [now apply all_chars_substring | exact H].
Qed.

(** X2.  The name it returns has at most 200 characters. *)
Theorem sanitize_filename_length (filename : string) :
  String.length (sanitize_filename filename) <= 200.
Proof.
  unfold sanitize_filename.
  destruct (Nat.ltb_spec 200
              (String.length (strip_chars dot_or_space (sub_invalid_chars filename))));
    [apply substring_length_le | assumption].
Qed.

(** X3.  The name it returns never starts with a dot or a space, and does not
    end with one when the name it is given has at most 200 characters; the
    cut at 200 characters comes after the strip and can leave one at the
    end. *)
Theorem sanitize_filename_ends (filename : string) :
  not_dot_or_space (first_char (sanitize_filename filename))
  /\ (String.length filename <= 200 ->
      not_dot_or_space (last_char (sanitize_filename filename))).
Proof.
  split.
  - unfold sanitize_filename, not_dot_or_space.
    pose proof (strip_chars_first dot_or_space (sub_invalid_chars filename)) as H.
    destruct (Nat.ltb 200 _); [|exact H].
    change 200 with (S 199). now rewrite substring_first.
  - intros Hlen. rewrite sanitize_filename_short by exact Hlen.
    apply strip_chars_last.
Qed.

Lemma sanitize_filename_ends_witness :
  not_dot_or_space (first_char (sanitize_filename " ..What is 1/2?. "))
  /\ not_dot_or_space (last_char (sanitize_filename " ..What is 1/2?. ")).
Proof.
  destruct (sanitize_filename_ends " ..What is 1/2?. ") as [H1 H2].
  split; [exact H1 | apply H2; cbn; lia].
Defined.

(** X4.  A name without an invalid character, with no dot or space at either
    end and with at most 200 characters is returned as it is. *)
Theorem sanitize_filename_clean (filename : string) :
  all_chars (fun c => negb (is_invalid_char c)) filename = true ->
  not_dot_or_space (first_char filename) ->
  not_dot_or_space (last_char filename) ->
  String.length filename <= 200 ->
  sanitize_filename filename = filename.
Proof.
  intros Hv Hf Hl Hlen. rewrite sanitize_filename_short by exact Hlen.
  unfold strip_chars. rewrite (sub_invalid_chars_id _ Hv).
  rewrite (lstrip_chars_id dot_or_space filename Hf).
  apply (rstrip_chars_id dot_or_space filename Hl).
Qed.

Lemma sanitize_filename_clean_witness :
  sanitize_filename "tea_survey.csv" = "tea_survey.csv".
Proof.
  apply sanitize_filename_clean;
    [reflexivity | reflexivity | reflexivity | cbn; lia].
Defined.

(** X5.  On a name of at most 200 characters, sanitizing a second time changes
    nothing. *)
Theorem sanitize_filename_idempotent (filename : string) :
  String.length filename <= 200 ->
  sanitize_filename (sanitize_filename filename) = sanitize_filename filename.
Proof.
  intros Hlen. rewrite (sanitize_filename_short filename Hlen).
  pose proof (stripped_length filename) as Hs.
  rewrite sanitize_filename_short by lia.
  rewrite (sub_invalid_chars_id _ (stripped_valid filename)).
  apply strip_chars_stripped.
Qed.

Lemma sanitize_filename_idempotent_witness :
  sanitize_filename (sanitize_filename " ..What is 1/2?. ")
  = sanitize_filename " ..What is 1/2?. ".
Proof.
  apply sanitize_filename_idempotent. cbn. lia.
Defined.

End Sanitize.

(** ** More on the row classifier *)

Section ClassifierMore.

Lemma lstrip_lstrip_chars (s : string) : lstrip s = lstrip_chars isspace s.
Proof. induction s as [|c t IH]; [reflexivity|]. cbn. now rewrite IH. Qed.

Lemma rstrip_rstrip_chars (s : string) : rstrip s = rstrip_chars isspace s.
Proof. induction s as [|c t IH]; [reflexivity|]. cbn. now rewrite IH. Qed.

Lemma strip_strip_chars (s : string) : strip s = strip_chars isspace s.
Proof.
  unfold strip, strip_chars. now rewrite rstrip_rstrip_chars, lstrip_lstrip_chars.
Qed.

Lemma strip_stripped (s : string) : strip (strip s) = strip s.
Proof. rewrite !strip_strip_chars. apply strip_chars_stripped. Qed.

Lemma truthy_false (s : string) : truthy s = false <-> s = "".
Proof. destruct s; cbn; split; congruence. Qed.

(** The test of [first_non_empty_cell] fails exactly on the cells it passes
    over. *)
Lemma passed_over_test (cell : string) :
  truthy (strip cell) && negb (lower (strip cell) =? "nan") = false
  <-> passed_over cell.
Proof.
  unfold passed_over. rewrite andb_false_iff, truthy_false, negb_false_iff.
  now rewrite String.eqb_eq.
Qed.

Lemma first_non_empty_cell_passed (before : row) (rest : row) :
  Forall passed_over before ->
  first_non_empty_cell (before ++ rest)%list = first_non_empty_cell rest.
Proof.
  induction 1 as [|cell before Hc _ IH]; [reflexivity|].
  cbn [app first_non_empty_cell].
  apply passed_over_test in Hc. now rewrite Hc.
Qed.

(** What [first_non_empty_cell] returns: the stripped text of the first
    cell it does not pass over, and the empty string when it passes over
    all of them. *)
Lemma first_non_empty_cell_cases (r : row) :
  (Forall passed_over r /\ first_non_empty_cell r = "")
  \/ exists before cell after,
       r = (before ++ cell :: after)%list
       /\ Forall passed_over before
       /\ ~ passed_over cell
       /\ first_non_empty_cell r = strip cell.
Proof.
  induction r as [|cell r IH]; [left; split; [constructor | reflexivity]|].
  cbn [first_non_empty_cell].
  destruct (truthy (strip cell) && negb (lower (strip cell) =? "nan")) eqn:E.
  - right. exists [], cell, r. repeat split; [constructor|].
    intros H. apply passed_over_test in H. congruence.
  - apply passed_over_test in E.
    destruct IH as [[Hall Hv]|(before & c & after & -> & Hb & Hc & Hv)].
    + left. split; [now constructor | exact Hv].
    + right. exists (cell :: before), c, after.
      repeat split; [now constructor | exact Hc | exact Hv].
Qed.

Lemma first_non_empty_cell_not_nan (r : row) :
  lower (first_non_empty_cell r) <> "nan".
Proof.
  destruct (first_non_empty_cell_cases r)
    as [[_ Hv]|(before & cell & after & _ & _ & Hc & Hv)]; rewrite Hv.
  - discriminate.
  - intros E. apply Hc. now right.
Qed.

(** X6.  [first_non_empty_cell] returns the empty string exactly for a row all
    of whose cells it passes over; what it returns otherwise is the
    stripped text of a cell of the row, before which all cells are passed
    over.  It never returns [nan] in any casing, and what it returns has no
    white space left at its ends. *)
Theorem first_non_empty_cell_result (r : row) :
  (first_non_empty_cell r = "" <-> Forall passed_over r)
  /\ (first_non_empty_cell r <> "" ->
      exists before cell after,
        r = (before ++ cell :: after)%list
        /\ Forall passed_over before
        /\ first_non_empty_cell r = strip cell)
  /\ lower (first_non_empty_cell r) <> "nan"
  /\ strip (first_non_empty_cell r) = first_non_empty_cell r.
Proof.
  destruct (first_non_empty_cell_cases r)
    as [[Hall Hv]|(before & cell & after & Hr & Hb & Hc & Hv)].
  - rewrite Hv. repeat split; try easy.
  - assert (Hne : strip cell <> "").
    { intros E. apply Hc. now left. }
    rewrite Hv. split; [|split; [|split]].
    + split; [contradiction|]. intros Hall. subst r.
      apply Forall_app in Hall as [_ Hall]. inversion Hall; contradiction.
    + intros _. now exists before, cell, after.
    + intros E. apply Hc. now right.
    + apply strip_stripped.
Qed.

Lemma blank_cell_passed_over (cell : string) : blank_cell cell -> passed_over cell.
Proof. intros [H|H]; [now left | right; now rewrite H]. Qed.

Lemma blank_row_first_cell (r : row) :
  Forall blank_cell r -> first_non_empty_cell r = "".
Proof.
  intros H. rewrite <- (app_nil_r r).
  apply first_non_empty_cell_passed.
  apply Forall_impl with (2 := H). exact blank_cell_passed_over.
Qed.

Lemma blank_row_header_cells (r : row) :
  Forall blank_cell r -> header_cells r = [].
Proof.
  unfold header_cells. induction 1 as [|cell r Hc _ IH]; [reflexivity|].
  cbn [filter]. rewrite IH.
  destruct Hc as [-> | ->]; reflexivity.
Qed.

(** X7.  A blank row, all of whose cells are empty or missing, is no question
    row, no header row and no data row, and the loop that sorts the rows of
    a section leaves its two lists as they are. *)
Theorem blank_row_unclassified (r : row) :
  Forall blank_cell r ->
  is_question_row r = false
  /\ is_header_row r = false
  /\ is_data_row r = false
  /\ forall acc, collect_step acc r = acc.
Proof.
  intros Hb. pose proof (blank_row_first_cell r Hb) as Hf.
  assert (Hq : is_question_row r = false)
    by (unfold is_question_row; now rewrite Hf).
  assert (Hh : is_header_row r = false).
  { rewrite is_header_row_cases, Hf. unfold other_header_trigger, header_row_text.
    now rewrite (blank_row_header_cells r Hb). }
  assert (Hd : is_data_row r = false)
    by (unfold is_data_row; now rewrite Hf).
  repeat split; try assumption.
  intros [hs ds]. unfold collect_step. now rewrite Hh, Hd.
Qed.

Lemma blank_row_unclassified_witness :
  is_question_row [""; "nan"; "  "] = false
  /\ is_header_row [""; "nan"; "  "] = false
  /\ is_data_row [""; "nan"; "  "] = false
  /\ forall acc, collect_step acc [""; "nan"; "  "] = acc.
Proof.
  apply blank_row_unclassified.
  repeat constructor; (now left) || (now right).
Defined.

Lemma question_row_first_cell (r : row) :
  is_question_row r = true -> first_non_empty_cell r <> "".
Proof.
  unfold is_question_row. intros H E. rewrite E in H. discriminate.
Qed.

(** X8.  A row that is no question row and whose first non-empty cell has fewer
    than 120 characters is a data row, whatever its other cells hold: the
    last test of [is_data_row] catches it. *)
Theorem short_row_is_data (r : row) :
  first_non_empty_cell r <> "" ->
  is_question_row r = false ->
  String.length (first_non_empty_cell r) < 120 ->
  is_data_row r = true.
Proof.
  intros Hne Hq Hlen. unfold is_data_row. rewrite Hq.
  pose proof (first_non_empty_cell_not_nan r) as Hnan.
  destruct (first_non_empty_cell r) as [|c t] eqn:E; [contradiction|].
  cbn [truthy negb orb].
  assert (Hn : (String c t =? "nan") = false).
  { apply String.eqb_neq. intros H. apply Hnan. now rewrite H. }
  rewrite Hn.
  destruct (Nat.leb 2 (numeric_cells r)); [reflexivity|].
  destruct (existsb _ response_categories); [reflexivity|].
  apply andb_true_iff. split; [reflexivity|].
  now apply Nat.ltb_lt.
Qed.

Lemma short_row_is_data_witness : is_data_row ["nan"; "Base"; "n/a"] = true.
Proof.
  apply short_row_is_data;
    [discriminate | reflexivity | apply Nat.ltb_lt; reflexivity].
Defined.

Lemma endswith_append (suffix s : string) : endswith suffix (s ++ suffix) = true.
Proof.
  induction s as [|c t IH].
  - destruct suffix; cbn; [reflexivity|]. now rewrite Ascii.eqb_refl, String.eqb_refl.
  - cbn [append endswith]. rewrite IH. apply orb_true_r.
Qed.

(** X9.  A row whose first non-empty cell ends in a question mark is a question
    row, and so is no data row. *)
Theorem question_mark_row (r : row) (s : string) :
  first_non_empty_cell r = s ++ "?" ->
  is_question_row r = true /\ is_data_row r = false.
Proof.
  intros H.
  assert (Hq : is_question_row r = true).
  { unfold is_question_row. rewrite H.
    assert (Hp : existsb (fun pattern => pattern (s ++ "?")) question_patterns = true).
    { apply existsb_exists. exists Re.ends_question_mark. split.
      - cbn. tauto.
      - unfold Re.ends_question_mark. now rewrite endswith_append. }
    now rewrite Hp. }
  split; [exact Hq|]. unfold is_data_row. rewrite Hq.
  now destruct (negb _ || _).
Qed.

Lemma question_mark_row_witness :
  is_question_row ["nan"; "Do you like tea?"] = true
  /\ is_data_row ["nan"; "Do you like tea?"] = false.
Proof. apply (question_mark_row _ "Do you like tea"). reflexivity. Defined.

End ClassifierMore.

(** ** Rows of a section *)

Section SectionRows.

Lemma data_row_first_cell (r : row) :
  is_data_row r = true -> first_non_empty_cell r <> "".
Proof. unfold is_data_row. intros H E. rewrite E in H. discriminate. Qed.

Lemma not_passed_over_present (cell : string) :
  ~ passed_over cell -> present (strip cell) = true.
Proof.
  intros H. unfold present. apply andb_true_iff. split.
  - destruct (strip cell) eqn:E; [|reflexivity]. exfalso. apply H. now left.
  - apply negb_true_iff, String.eqb_neq. intros E. apply H. right. now rewrite E.
Qed.

(** A row with a first non-empty cell has a non-empty cleaned cell, so the
    test [any(data_row)] passes on every data row. *)
Lemma data_row_any (r : row) :
  is_data_row r = true -> existsb truthy (clean_cells r) = true.
Proof.
  intros Hd. apply data_row_first_cell in Hd.
  destruct (first_non_empty_cell_cases r)
    as [[_ Hv]|(before & cell & after & -> & _ & Hc & Hv)]; [contradiction|].
  apply existsb_exists. exists (strip cell). split.
  - unfold clean_cells. apply in_map_iff. exists cell. split.
    + cbv zeta. now rewrite (not_passed_over_present _ Hc).
    + apply in_or_app. right. now left.
  - destruct (strip cell) eqn:E; [|reflexivity]. exfalso. apply Hc. now left.
Qed.

Lemma collect_fold_data (rs : list row) : forall hs ds,
  snd (fold_left collect_step rs (hs, ds))
  = (ds ++ map clean_cells
             (filter (fun r => negb (is_header_row r) && is_data_row r) rs))%list.
Proof.
  induction rs as [|r rs IH]; intros hs ds; cbn [fold_left filter map].
  - now rewrite app_nil_r.
  - unfold collect_step at 2. destruct (is_header_row r); cbn [negb andb].
    + apply IH.
    + destruct (is_data_row r) eqn:Hd; [|apply IH].
      rewrite (data_row_any r Hd), IH. cbn [map]. now rewrite <- app_assoc.
Qed.

Lemma filter_split_length {A : Type} (f g : A -> bool) (l : list A) :
  List.length (filter f l) + List.length (filter (fun a => negb (f a) && g a) l)
  <= List.length l.
Proof.
  induction l as [|a l IH]; [easy|]. cbn [filter].
  destruct (f a); cbn [negb andb List.length]; [lia|].
  destruct (g a); cbn [List.length]; lia.
Qed.

(** X10.  The data rows of a section are the rows after the question row that
    [is_data_row] accepts and [is_header_row] does not flag, cleaned and in
    row order: the header test comes first, and no data row is dropped for
    being empty.  A row gives at most one entry, to one of the two lists. *)
Theorem section_data_rows (df : DataFrame) (qs qe : nat) :
  section_data df qs qe = map clean_cells (unflagged_data_rows df qs qe)
  /\ (forall r, In r (unflagged_data_rows df qs qe) ->
                is_header_row r = false /\ is_data_row r = true
                /\ is_question_row r = false)
  /\ List.length (all_header_rows df qs qe) + List.length (section_data df qs qe)
     <= qe - (qs + 1).
Proof.
  assert (Hd : section_data df qs qe = map clean_cells (unflagged_data_rows df qs qe))
    by (unfold section_data, collect; now rewrite collect_fold_data).
  split; [exact Hd|]. split.
  - intros r Hin. apply filter_In in Hin as [_ H].
    apply andb_true_iff in H as [Hh Hdr]. apply negb_true_iff in Hh.
    repeat split; try assumption.
    destruct (is_question_row r) eqn:Hq; [|reflexivity].
    unfold is_data_row in Hdr. rewrite Hq in Hdr.
    now destruct (negb _ || _).
  - rewrite Hd, all_header_rows_flagged, !length_map.
    unfold flagged_rows, unflagged_data_rows.
    pose proof (filter_split_length is_header_row is_data_row
                  (rows_in df (qs + 1) qe)) as H.
    assert (Hlen : List.length (rows_in df (qs + 1) qe) = qe - (qs + 1))
      by (unfold rows_in, range; now rewrite length_map, length_seq).
    now rewrite Hlen in H.
Qed.

Lemma rows_in_positions (df : DataFrame) (a b : nat) (r : row) :
  In r (rows_in df a b) <-> exists p, a <= p /\ p < b /\ r = iloc df p.
Proof.
  unfold rows_in, range. rewrite in_map_iff. split.
  - intros (p & <- & Hp). apply in_seq in Hp. exists p. repeat split; lia.
  - intros (p & Ha & Hb & ->). exists p. split; [reflexivity|].
    apply in_seq. lia.
Qed.

Lemma search_marker_origin (rs : list row) (th : list string) :
  search_marker rs = Some th -> exists r, In r rs /\ th = clean_cells r.
Proof.
  rewrite search_marker_find. destruct (find has_marker_cell rs) as [r|] eqn:E;
    [|discriminate].
  intros [= <-]. apply find_some in E as [Hin _]. now exists r.
Qed.

Lemma total_headers_of_origin (df : DataFrame) (qs qe : nat)
    (scanned : option (list string)) (th : list string) :
  total_headers_of df qs qe scanned = Some th ->
  scanned = Some th
  \/ exists r, th = clean_cells r
               /\ (In r (rows_in df (qs + 1) qe) \/ In r (rows_in df (qs - 6) qs)).
Proof.
  unfold total_headers_of. cbv zeta. cbn [Nat.max].
  destruct (found scanned) eqn:Hf; cbn [negb].
  - rewrite Hf. cbn [negb]. now left.
  - destruct (search_marker (rows_in df (qs + 1) qe)) as [t1|] eqn:E1.
    + destruct (found (Some t1)); cbn [negb].
      * intros [= <-]. apply search_marker_origin in E1 as (r & Hin & ->).
        right. exists r. split; [reflexivity | now left].
      * destruct (search_marker (rows_in df (qs - 6) qs)) as [t2|] eqn:E2.
        -- intros [= <-]. apply search_marker_origin in E2 as (r & Hin & ->).
           right. exists r. split; [reflexivity | now right].
        -- intros [= <-]. apply search_marker_origin in E1 as (r & Hin & ->).
           right. exists r. split; [reflexivity | now left].
    + rewrite Hf. cbn [negb].
      destruct (search_marker (rows_in df (qs - 6) qs)) as [t2|] eqn:E2.
      * intros [= <-]. apply search_marker_origin in E2 as (r & Hin & ->).
        right. exists r. split; [reflexivity | now right].
      * now left.
Qed.

Lemma append_if_found_In (x : option (list string)) (h : list string) :
  In h (append_if_found x) -> x = Some h.
Proof.
  destruct x as [l|]; [|contradiction]. cbn.
  destruct (nonempty l); [|contradiction]. now intros [->|[]].
Qed.

Lemma append_if_found_length (x : option (list string)) :
  List.length (append_if_found x) <= 1.
Proof. destruct x as [[|c l]|]; cbn; lia. Qed.

Lemma all_header_rows_origin (df : DataFrame) (qs qe : nat) (h : list string) :
  In h (all_header_rows df qs qe) ->
  exists r, h = clean_cells r /\ In r (rows_in df (qs + 1) qe).
Proof.
  rewrite all_header_rows_flagged. intros Hin.
  apply in_map_iff in Hin as (r & <- & Hr).
  apply filter_In in Hr as [Hr _]. now exists r.
Qed.

Lemma header_rows_of_origin (df : DataFrame) (qs qe : nat) (h : list string) :
  In h (header_rows_of df qs qe) ->
  exists r, h = clean_cells r
            /\ (In r (rows_in df (qs + 1) qe) \/ In r (rows_in df (qs - 6) qs)).
Proof.
  unfold header_rows_of.
  destruct (nonempty (all_header_rows df qs qe)); [|contradiction].
  rewrite scan_headers_last. intros Hin.
  apply in_app_or in Hin as [Hin|Hin]; apply append_if_found_In in Hin.
  - apply find_last_In in Hin as [Hin _].
    apply all_header_rows_origin in Hin as (r & -> & Hr).
    exists r. split; [reflexivity | now left].
  - apply total_headers_of_origin in Hin as [Hin|Hin]; [|exact Hin].
    apply find_last_In in Hin as [Hin _].
    apply all_header_rows_origin in Hin as (r & -> & Hr).
    exists r. split; [reflexivity | now left].
Qed.

(** X11.  The header set of a section has at most two rows, and each of them is
    the cleaned form of a row of the grid that stands in the section after
    the question row or at one of the six positions before the question
    row. *)
Theorem header_set_origin (df : DataFrame) (qs qe : nat) :
  List.length (header_rows_of df qs qe) <= 2
  /\ forall h, In h (header_rows_of df qs qe) ->
       exists p, header_position qs qe p /\ h = clean_cells (iloc df p).
Proof.
  split.
  - unfold header_rows_of.
    destruct (nonempty (all_header_rows df qs qe)); [|cbn; lia].
    destruct (scan_headers (all_header_rows df qs qe)) as [d t].
    rewrite length_app.
    pose proof (append_if_found_length d).
    pose proof (append_if_found_length (total_headers_of df qs qe t)). lia.
  - intros h Hin. apply header_rows_of_origin in Hin as (r & -> & [Hr|Hr]);
      apply rows_in_positions in Hr as (p & Ha & Hb & ->); exists p;
      (split; [|reflexivity]); unfold header_position; [left | right]; lia.
Qed.

End SectionRows.

(** ** Cells of a data row *)

Section DataCells.

Lemma padded_nth (n : nat) (d : list string) (i : nat) :
  i < n -> nth i (firstn n (pad_to n d)) "" = nth i d "".
Proof.
  intros Hi. rewrite nth_firstn.
  destruct (Nat.ltb_spec i n); [|lia]. unfold pad_to.
  destruct (Nat.lt_ge_cases i (List.length d)).
  - now rewrite app_nth1.
  - rewrite app_nth2, nth_repeat by lia. now rewrite nth_overflow.
Qed.

Lemma map_range_nth {A : Type} (f : nat -> A) (n i : nat) (d : A) :
  i < n -> nth i (map f (range 0 n)) d = f i.
Proof.
  intros Hi. rewrite (nth_indep _ d (f 0)).
  - rewrite map_nth. unfold range. now rewrite seq_nth by lia.
  - rewrite length_map. unfold range. rewrite length_seq. lia.
Qed.

Lemma padded_cells (n : nat) (d : list string) :
  firstn n (pad_to n d) = map (fun i => nth i d "") (range 0 n).
Proof.
  apply (nth_ext _ _ "" "").
  - rewrite padded_width, length_map. unfold range.
    rewrite length_seq. lia.
  - intros i Hi. rewrite padded_width in Hi.
    now rewrite padded_nth, map_range_nth.
Qed.

(** X14.  The line of a data row has one cell for each column of the table: cell
    [i] is the cleaned cell [i] of the row, or empty when the row has no
    cell [i]; the cells of the row beyond the last column are left out. *)
Theorem data_line_cells (table_headers data_row : list string) :
  data_line table_headers data_row
  = table_line (map (fun i => clean_cell (nth i data_row ""))
                    (range 0 (List.length table_headers))).
Proof.
  unfold data_line. now rewrite padded_cells, map_map.
Qed.

Lemma padded_same_width (n : nat) (d : list string) :
  List.length d = n -> firstn n (pad_to n d) = d.
Proof.
  intros <-. unfold pad_to. rewrite Nat.sub_diag. cbn [repeat].
  rewrite app_nil_r. apply firstn_all.
Qed.

Lemma max_cols_bound (data_rows : list (list string)) (d : list string) :
  In d data_rows -> List.length d <= max_cols data_rows.
Proof.
  induction data_rows as [|x l IH]; [contradiction|]. cbn [max_cols fold_right].
  fold (max_cols l). intros [->|Hin]; [lia|]. specialize (IH Hin). lia.
Qed.

Lemma generic_headers_length (n : nat) : List.length (generic_headers n) = n.
Proof.
  unfold generic_headers, range. rewrite length_map, length_seq. lia.
Qed.

(** X15.  Without a header set the table is as wide as the widest data row, so
    no cell of a data row is left out: a row is filled with empty cells up
    to that width and written whole. *)
Theorem generic_headers_fit (data_rows : list (list string)) (d : list string) :
  In d data_rows ->
  List.length (table_headers_of [] data_rows) = max_cols data_rows
  /\ List.length d <= max_cols data_rows
  /\ data_line (table_headers_of [] data_rows) d
     = table_line (map clean_cell
                       (d ++ repeat "" (max_cols data_rows - List.length d))%list).
Proof.
  intros Hin. pose proof (max_cols_bound _ _ Hin) as Hle.
  cbn [table_headers_of]. rewrite generic_headers_length.
  split; [reflexivity|]. split; [exact Hle|].
  unfold data_line. rewrite generic_headers_length.
  rewrite firstn_all2; [reflexivity|].
  unfold pad_to. rewrite length_app, repeat_length. lia.
Qed.

Lemma generic_headers_fit_witness :
  data_line (table_headers_of [] [["Yes"; "60%"; "12"]; ["No"]]) ["No"]
  = table_line (map clean_cell ["No"; ""; ""]).
Proof.
  assert (H : In ["No"] [["Yes"; "60%"; "12"]; ["No"]]) by (right; now left).
  exact (proj2 (proj2 (generic_headers_fit _ _ H))).
Defined.

Lemma all_chars_append (q : ascii -> bool) (a b : string) :
  all_chars q (a ++ b) = all_chars q a && all_chars q b.
Proof.
  induction a as [|c a IH]; [reflexivity|]. cbn [append all_chars].
  now rewrite IH, andb_assoc.
Qed.

Lemma clean_cell_one_line (cell : string) : one_line (clean_cell cell) = true.
Proof.
  unfold one_line. induction cell as [|a c IH]; [reflexivity|].
  rewrite clean_cell_cons.
  destruct (Ascii.eqb a "|") eqn:Ea; [exact IH|].
  destruct (Ascii.eqb a "010") eqn:En; [exact IH|].
  cbn [all_chars]. now rewrite En, IH.
Qed.

Lemma join_one_line (sep : string) (parts : list string) :
  one_line sep = true ->
  Forall (fun part => one_line part = true) parts ->
  one_line (join sep parts) = true.
Proof.
  intros Hsep. unfold one_line in *.
  induction 1 as [|x l Hx Hl IH]; [reflexivity|].
  destruct l as [|y l]; [exact Hx|].
  change (join sep (x :: y :: l)) with (x ++ sep ++ join sep (y :: l)).
  now rewrite !all_chars_append, Hx, Hsep, IH.
Qed.

(** X16.  The line of a data row is one line: its only line feed is the one that
    ends it, whatever line feeds the cells of the row hold. *)
Theorem data_line_one_line (table_headers data_row : list string) :
  exists body,
    data_line table_headers data_row = body ++ nl /\ one_line body = true.
Proof.
  unfold data_line, table_line.
  set (cells := map clean_cell _).
  exists ("| " ++ join " | " cells ++ " |"). split.
  - now rewrite !append_assoc.
  - unfold one_line. rewrite !all_chars_append.
    assert (H : one_line (join " | " cells) = true).
    { apply join_one_line; [reflexivity|]. unfold cells.
      apply Forall_forall. intros c Hin.
      apply in_map_iff in Hin as (c0 & <- & _). apply clean_cell_one_line. }
    unfold one_line in H. now rewrite H.
Qed.

Lemma data_line_fields_witness :
  List.length (table_fields (data_line ["a"; "b"] ["x|y"; "\|"; "z"])) = 2.
Proof.
  apply (data_line_fields ["a"; "b"]). discriminate.
Defined.

Lemma header_line_fields_witness :
  List.length (table_fields (header_line ["Total (A)"; "N=100"])) = 2.
Proof.
  apply (header_line_fields ["Total (A)"; "N=100"]); [discriminate|].
  repeat constructor.
Defined.

End DataCells.

(** ** The document as a whole *)

Section WholeDocument.

Lemma concat_empty_cons (x : string) (l : list string) :
  concat "" (x :: l) = x ++ concat "" l.
Proof. destruct l; cbn; [now rewrite append_empty_r | reflexivity]. Qed.

Lemma numbered_renderings_cons (df : DataFrame) (k : nat) (sec : nat * nat)
    (secs : list (nat * nat)) :
  numbered_renderings df k (sec :: secs)
  = rendering df k (fst sec) (snd sec) ++ numbered_renderings df (S k) secs.
Proof.
  unfold numbered_renderings. cbn [List.length seq combine map fst snd].
  apply concat_empty_cons.
Qed.

Lemma process_section_kept (df : DataFrame) (k : nat) (c : string) (sec : nat * nat) :
  has_content df sec = true ->
  process_section df (k, c) sec
  = (k + 1, c ++ rendering df (k + 1) (fst sec) (snd sec)).
Proof.
  destruct sec as [qs qe]. unfold has_content, process_section. cbn [fst snd].
  now intros ->.
Qed.

Lemma process_section_skipped (df : DataFrame) (st : nat * string) (sec : nat * nat) :
  has_content df sec = false -> process_section df st sec = st.
Proof.
  destruct sec as [qs qe], st as [k c].
  unfold has_content, process_section. cbn [fst snd]. now intros ->.
Qed.

(** The loop over the sections: each section with content takes the next
    number and adds its rendering; the others change nothing. *)
Lemma process_sections_fold (df : DataFrame) (secs : list (nat * nat)) :
  forall k c,
    fold_left (process_section df) secs (k, c)
    = (k + List.length (filter (has_content df) secs),
       c ++ numbered_renderings df (k + 1) (filter (has_content df) secs)).
Proof.
  induction secs as [|sec secs IH]; intros k c; cbn [fold_left filter].
  - cbn. now rewrite Nat.add_0_r, append_empty_r.
  - destruct (has_content df sec) eqn:Hc.
    + rewrite (process_section_kept df k c sec Hc), IH.
      rewrite numbered_renderings_cons, append_assoc. cbn [List.length].
      replace (S (k + 1)) with (k + 1 + 1) by lia.
      f_equal. lia.
    + rewrite (process_section_skipped df (k, c) sec Hc). apply IH.
Qed.

(** X20.  The document of a grid with rows and columns is its head, the
    renderings of the sections that have a header row or a data row, in
    row order and numbered 1, 2, ... without a gap, and the summary with
    the number of those sections, which is at most the number of question
    rows. *)
Theorem document_structure (df : DataFrame) (filename : string) :
  df_empty df = false ->
  format_survey_csv_to_markdown df filename
  = document_head df filename
    ++ numbered_renderings df 1 (kept_sections df)
    ++ summary (List.length (kept_sections df)) filename
  /\ List.length (kept_sections df)
     <= List.length (filter is_question_row (rows df)).
Proof.
  intros He. split.
  - unfold format_survey_csv_to_markdown, process_sections. rewrite He.
    rewrite process_sections_fold. cbn [Nat.add].
    fold (kept_sections df). now rewrite append_assoc.
  - unfold kept_sections.
    rewrite <- (boundaries_from_length (rows df) 0), <- question_boundaries_from.
    rewrite <- sections_length. apply filter_length_le.
Qed.

Lemma document_structure_witness :
  format_survey_csv_to_markdown Samples.tea "tea_survey.csv"
  = document_head Samples.tea "tea_survey.csv"
    ++ numbered_renderings Samples.tea 1 (kept_sections Samples.tea)
    ++ summary (List.length (kept_sections Samples.tea)) "tea_survey.csv".
Proof.
  exact (proj1 (document_structure Samples.tea "tea_survey.csv" eq_refl)).
Defined.

Lemma no_question_row_no_section (df : DataFrame) :
  Forall (fun r => is_question_row r = false) (rows df) -> sections df = [].
Proof.
  intros H. apply length_zero_iff_nil.
  rewrite sections_length, question_boundaries_from, boundaries_from_length.
  induction H as [|r rs Hr _ IH]; [reflexivity|]. cbn [filter]. now rewrite Hr.
Qed.

(** X21.  A grid with rows and columns and no question row gives the head of the
    document and the summary with a count of zero: none of its rows is
    rendered. *)
Theorem no_question_row_document (df : DataFrame) (filename : string) :
  df_empty df = false ->
  Forall (fun r => is_question_row r = false) (rows df) ->
  format_survey_csv_to_markdown df filename
  = document_head df filename ++ summary 0 filename.
Proof.
  intros He Hq. apply no_question_document; [exact He|].
  now apply no_question_row_no_section.
Qed.

Lemma no_question_row_document_witness :
  format_survey_csv_to_markdown
    (mkDataFrame ["c0"; "c1"] [["Total"; "N=100"]; ["Yes"; "60%"]]) "s.csv"
  = document_head (mkDataFrame ["c0"; "c1"] [["Total"; "N=100"]; ["Yes"; "60%"]])
                  "s.csv"
    ++ summary 0 "s.csv".
Proof.
  apply no_question_row_document; [reflexivity|].
  repeat constructor.
Defined.

(** X22.  The text shown for a question is the stripped cell of the first column
    of the question row.  It is the text that made the row a question row
    exactly when [first_non_empty_cell] does not pass over that cell;
    when the first column is empty or missing, the heading shows the empty
    text or [nan] and not the question. *)
Theorem question_text_shown (df : DataFrame) (qs : nat) :
  is_question_row (iloc df qs) = true ->
  question_text_of df qs = strip (hd "" (iloc df qs))
  /\ (question_text_of df qs = first_non_empty_cell (iloc df qs)
      <-> ~ passed_over (hd "" (iloc df qs))).
Proof.
  intros Hq. split; [reflexivity|]. unfold question_text_of.
  pose proof (question_row_first_cell _ Hq) as Hne.
  pose proof (first_non_empty_cell_not_nan (iloc df qs)) as Hnan.
  destruct (iloc df qs) as [|cell rest]; [now contradiction Hne|].
  cbn [hd]. cbn [first_non_empty_cell] in *.
  destruct (truthy (strip cell) && negb (lower (strip cell) =? "nan")) eqn:E.
  - split; [|reflexivity]. intros _ Hp. apply passed_over_test in Hp. congruence.
  - apply passed_over_test in E. split; [|contradiction].
    intros Heq [Hs|Hs]; rewrite Heq in Hs; contradiction.
Qed.

Lemma question_text_shown_witness :
  let df := mkDataFrame ["c0"; "c1"] [["nan"; "Do you like tea?"]] in
  question_text_of df 0 = strip (hd "" (iloc df 0))
  /\ (question_text_of df 0 = first_non_empty_cell (iloc df 0)
      <-> ~ passed_over (hd "" (iloc df 0))).
Proof.
  exact (question_text_shown
           (mkDataFrame ["c0"; "c1"] [["nan"; "Do you like tea?"]]) 0 eq_refl).
Defined.

End WholeDocument.

(** ** Sections of a rectangular grid *)

Section Rectangular.

Variable df : DataFrame.
Hypothesis Hrect : rectangular df.

Lemma rows_in_width (a b : nat) (r : row) :
  b <= df_len df -> In r (rows_in df a b) ->
  List.length r = List.length (columns df).
Proof.
  intros Hb Hin. apply rows_in_positions in Hin as (p & _ & Hp & ->).
  unfold rectangular in Hrect. rewrite Forall_forall in Hrect.
  apply Hrect. unfold iloc. apply nth_In. unfold df_len in Hb. lia.
Qed.

Lemma clean_cells_length (r : row) : List.length (clean_cells r) = List.length r.
Proof. unfold clean_cells. apply length_map. Qed.

Lemma section_in_grid (qs qe : nat) :
  In (qs, qe) (sections df) -> qs < qe /\ qe <= df_len df.
Proof.
  rewrite sections_ranges. intros Hin.
  exact (ranges_of_bounds _ _ (question_boundaries_increasing df) _ Hin).
Qed.

Lemma header_rows_width (qs qe : nat) (h : list string) :
  In (qs, qe) (sections df) ->
  In h (header_rows_of df qs qe) ->
  List.length h = List.length (columns df).
Proof.
  intros Hsec Hin. apply section_in_grid in Hsec as [Hlt Hle].
  apply header_rows_of_origin in Hin as (r & -> & [Hr|Hr]);
    rewrite clean_cells_length; eapply rows_in_width; try exact Hr; lia.
Qed.

Lemma section_data_width (qs qe : nat) (d : list string) :
  In (qs, qe) (sections df) ->
  In d (section_data df qs qe) ->
  List.length d = List.length (columns df).
Proof.
  intros Hsec Hin. apply section_in_grid in Hsec as [Hlt Hle].
  unfold section_data, collect in Hin. rewrite collect_fold_data in Hin.
  cbn [app] in Hin. apply in_map_iff in Hin as (r & <- & Hr).
  apply filter_In in Hr as [Hr _].
  rewrite clean_cells_length. now apply (rows_in_width (qs + 1) qe).
Qed.

Lemma max_cols_same_width (n : nat) (data_rows : list (list string)) :
  data_rows <> [] ->
  (forall d, In d data_rows -> List.length d = n) ->
  max_cols data_rows = n.
Proof.
  induction data_rows as [|x l IH]; [contradiction|]. intros _ Hw.
  cbn [max_cols fold_right]. fold (max_cols l).
  rewrite (Hw x) by now left.
  destruct l as [|y l]; [cbn; lia|].
  rewrite IH; [lia | discriminate | intros d Hd; apply Hw; now right].
Qed.

Lemma section_table_width (qs qe : nat) :
  In (qs, qe) (sections df) ->
  has_content df (qs, qe) = true ->
  List.length (table_headers_of (header_rows_of df qs qe) (section_data df qs qe))
  = List.length (columns df).
Proof.
  intros Hsec Hc. unfold table_headers_of.
  destruct (header_rows_of df qs qe) as [|h hr] eqn:E.
  - rewrite generic_headers_length. apply max_cols_same_width.
    + unfold has_content in Hc. cbn [fst snd] in Hc. rewrite E in Hc.
      cbn [nonempty orb] in Hc. intros E'. rewrite E' in Hc. discriminate.
    + intros d Hd. now apply (section_data_width qs qe).
  - apply (header_rows_width qs qe); [exact Hsec|]. rewrite E. now left.
Qed.

(** X19.  In a grid all of whose rows have one cell for each column, the rows of
    the header set and the data rows of every section have that many cells
    and so has the table, so the renderer has nothing to fill or to cut:
    the line of a data row holds all the cells of the row, cleaned, and the
    line of a second header row holds all of its cells. *)
Theorem rectangular_section_whole (qs qe : nat) :
  In (qs, qe) (sections df) ->
  let header_rows := header_rows_of df qs qe in
  let data_rows := section_data df qs qe in
  let table_headers := table_headers_of header_rows data_rows in
  (forall h, In h header_rows -> List.length h = List.length (columns df))
  /\ (forall d, In d data_rows ->
        List.length d = List.length (columns df)
        /\ List.length table_headers = List.length (columns df)
        /\ data_line table_headers d = table_line (map clean_cell d))
  /\ (forall h, In h header_rows -> secondary_line table_headers h = table_line h).
Proof.
  intros Hsec header_rows data_rows table_headers.
  assert (Hh : forall h, In h header_rows ->
                         List.length h = List.length (columns df))
    by (intros h; now apply header_rows_width).
  assert (Hd : forall d, In d data_rows ->
                         List.length d = List.length (columns df))
    by (intros d; now apply section_data_width).
  assert (Ht : has_content df (qs, qe) = true ->
               List.length table_headers = List.length (columns df))
    by (now apply section_table_width).
  split; [exact Hh|]. split.
  - intros d Hin.
    assert (Hc : has_content df (qs, qe) = true).
    { unfold has_content. cbn [fst snd]. fold data_rows.
      destruct data_rows; [contradiction | apply orb_true_r]. }
    split; [now apply Hd|]. split; [now apply Ht|].
    unfold data_line. rewrite padded_same_width; [reflexivity|].
    rewrite (Hd d Hin). symmetry. now apply Ht.
  - intros h Hin.
    assert (Hc : has_content df (qs, qe) = true).
    { unfold has_content. cbn [fst snd]. fold header_rows.
      destruct header_rows; [contradiction | reflexivity]. }
    unfold secondary_line. rewrite padded_same_width; [reflexivity|].
    rewrite (Hh h Hin). symmetry. now apply Ht.
Qed.

End Rectangular.

Section RectangularWitness.

Lemma tea_rectangular : rectangular Samples.tea.
Proof. repeat constructor. Qed.

Lemma rectangular_section_whole_witness :
  List.length ["Yes"; "60%"] = 2
  /\ List.length (table_headers_of (header_rows_of Samples.tea 0 4)
                                   (section_data Samples.tea 0 4)) = 2
  /\ data_line (table_headers_of (header_rows_of Samples.tea 0 4)
                                 (section_data Samples.tea 0 4)) ["Yes"; "60%"]
     = table_line (map clean_cell ["Yes"; "60%"]).
Proof.
  assert (Hsec : In (0, 4) (sections Samples.tea)) by now left.
  assert (Hd : In ["Yes"; "60%"] (section_data Samples.tea 0 4)) by now left.
  exact (proj1 (proj2 (rectangular_section_whole Samples.tea tea_rectangular
                         0 4 Hsec)) ["Yes"; "60%"] Hd).
Defined.

Lemma find_last_pointwise {A : Type} (P Q : A -> bool) (l : list A) :
  (forall a, P a = Q a) -> find_last P l = find_last Q l.
Proof. intros H. unfold find_last. now apply find_pointwise. Qed.

(** X13.  A flagged row that is the last one with a descriptive label and also
    the last one with [N=] in its text fills both places of the header
    set: the table shows it as its header row and again as its first body
    row. *)
Theorem header_row_twice (df : DataFrame) (qs qe : nat) (h : list string) :
  find_last is_descriptive (all_header_rows df qs qe) = Some h ->
  find_last contains_N_eq (all_header_rows df qs qe) = Some h ->
  header_rows_of df qs qe = [h; h]
  /\ secondary_lines h (header_rows_of df qs qe) = header_line h.
Proof.
  intros Hd Ht.
  assert (Hin : In h (all_header_rows df qs qe))
    by (now apply find_last_In in Hd as [Hin _]).
  assert (Hne : all_header_rows df qs qe <> [])
    by (intros E; rewrite E in Hin; contradiction).
  assert (Hrows : header_rows_of df qs qe = [h; h]).
  { rewrite (header_rows_of_flagged df qs qe Hne).
    unfold descriptive_headers_of, sample_size_header_of, scanned_total_of.
    rewrite scan_headers_last. cbn [fst snd]. rewrite Hd.
    rewrite (find_last_pointwise is_total contains_N_eq)
      by apply is_total_contains_N_eq.
    rewrite Ht.
    rewrite total_headers_of_scanned; [reflexivity|].
    now apply (all_header_rows_nonempty df qs qe). }
  split; [exact Hrows|]. rewrite Hrows. cbn [secondary_lines].
  unfold secondary_line, header_line. now rewrite padded_same_width.
Qed.

Lemma header_row_twice_witness :
  header_rows_of Samples.two_totals 0 3
  = [["Total (A)"; "N=TBD"]; ["Total (A)"; "N=TBD"]].
Proof.
  exact (proj1 (header_row_twice Samples.two_totals 0 3 ["Total (A)"; "N=TBD"]
                  eq_refl eq_refl)).
Defined.

End RectangularWitness.

(** ** The [Total] test and the scan of the reconciler *)

Section TotalRows.

Lemma prefix_N_eq (s : string) : prefix "N=" s = starts_N_eq s.
Proof.
  destruct s as [|c [|d t]]; cbn [prefix starts_N_eq]; [reflexivity| |].
  - now destruct (ascii_dec "N" c).
  - destruct (ascii_dec "N" c) as [<-|Hc].
    + destruct (ascii_dec "=" d) as [<-|Hd]; [now destruct t|].
      symmetry. apply andb_false_iff. right. apply Ascii.eqb_neq. congruence.
    + symmetry. apply andb_false_iff. left. apply Ascii.eqb_neq. congruence.
Qed.

Lemma contains_N_eq_cons (c : ascii) (t : string) :
  contains "N=" (String c t) = starts_N_eq (String c t) || contains "N=" t.
Proof. cbn [contains]. now rewrite prefix_N_eq. Qed.

(** [N=] does not reach across a space. *)
Lemma contains_N_eq_space (a b : string) :
  contains "N=" (a ++ String " " b) = contains "N=" a || contains "N=" b.
Proof.
  induction a as [|c a IH].
  - cbn [append]. rewrite contains_N_eq_cons. now destruct b.
  - cbn [append]. rewrite !contains_N_eq_cons, IH, orb_assoc. f_equal. f_equal.
    destruct a as [|d a]; cbn [append starts_N_eq]; [|reflexivity].
    now rewrite andb_false_r.
Qed.

Lemma join_space_cons (x y : string) (l : list string) :
  join " " (x :: y :: l) = x ++ String " " (join " " (y :: l)).
Proof. reflexivity. Qed.

Lemma contains_N_eq_join (l : list string) :
  contains "N=" (join " " l) = existsb (contains "N=") l.
Proof.
  induction l as [|x l IH]; [reflexivity|].
  destruct l as [|y l].
  - cbn [join concat existsb]. now rewrite orb_false_r.
  - rewrite join_space_cons, contains_N_eq_space, IH. reflexivity.
Qed.

Lemma contains_N_eq_lstrip (s : string) :
  contains "N=" s = true -> contains "N=" (lstrip s) = true.
Proof.
  induction s as [|c t IH]; [easy|]. cbn [lstrip].
  destruct (isspace c) eqn:E; [|easy].
  rewrite contains_N_eq_cons. intros H. apply IH.
  apply orb_true_iff in H as [H|H]; [|exact H].
  destruct t as [|d t]; [discriminate|]. cbn [starts_N_eq] in H.
  apply andb_true_iff in H as [H _]. apply Ascii.eqb_eq in H. subst c.
  discriminate.
Qed.

Lemma contains_N_eq_rstrip (s : string) :
  contains "N=" s = true -> contains "N=" (rstrip s) = true.
Proof.
  induction s as [|c t IH]; [easy|].
  rewrite contains_N_eq_cons. intros H. cbn [rstrip].
  apply orb_true_iff in H as [H|H].
  - destruct t as [|d t']; [discriminate|]. cbn [starts_N_eq] in H.
    apply andb_true_iff in H as [Hc Hd].
    apply Ascii.eqb_eq in Hc, Hd. subst c d.
    cbn [rstrip]. destruct (rstrip t'); reflexivity.
  - specialize (IH H). destruct (rstrip t) as [|d u]; [discriminate|].
    rewrite contains_N_eq_cons, IH. apply orb_true_r.
Qed.

Lemma contains_N_eq_strip (cell : string) :
  contains "N=" cell = true ->
  contains "N=" (strip cell) = true /\ present (strip cell) = true.
Proof.
  intros H. assert (Hs : contains "N=" (strip cell) = true)
    by (now apply contains_N_eq_rstrip, contains_N_eq_lstrip).
  split; [exact Hs|]. unfold present.
  destruct (strip cell) as [|c t] eqn:E; [discriminate|]. cbn [truthy andb].
  apply negb_true_iff, String.eqb_neq. intros E'. rewrite E' in Hs. discriminate.
Qed.

(** X12.  A row with [N=] in the text of all its cells has [N=] in the text of
    its cleaned cells, so the scan of the reconciler takes for a
    sample-size header every row that [is_header_row] flags for its first
    cell [Total]: the two tests agree though they read two different
    texts. *)
Theorem total_row_scanned (r : row) :
  contains "N=" (all_cells_text r) = true ->
  is_total (clean_cells r) = true
  /\ (first_non_empty_cell r = "Total" -> is_header_row r = true).
Proof.
  intros H. split.
  - rewrite is_total_contains_N_eq. unfold contains_N_eq, all_cells_text in *.
    rewrite contains_N_eq_join in *.
    apply existsb_exists in H as (cell & Hin & Hc).
    apply contains_N_eq_strip in Hc as [Hs Hp].
    apply existsb_exists. exists (strip cell). split; [|exact Hs].
    unfold clean_cells. apply in_map_iff. exists cell.
    split; [|exact Hin]. cbv zeta. now rewrite Hp.
  - intros Hf. rewrite is_header_row_cases, Hf, H. reflexivity.
Qed.

Lemma total_row_scanned_witness :
  is_total (clean_cells [" Total "; "nan"; " N=100 "]) = true
  /\ (first_non_empty_cell [" Total "; "nan"; " N=100 "] = "Total" ->
      is_header_row [" Total "; "nan"; " N=100 "] = true).
Proof. apply total_row_scanned. reflexivity. Defined.

End TotalRows.

Section DocumentWitness.

Lemma table_head_in_document_witness :
  contains (header_line ["Total"; "N=100"] ++ separator_line ["Total"; "N=100"])
           (format_survey_csv_to_markdown Samples.tea "tea_survey.csv") = true.
Proof.
  assert (Hsec : In (0, 4) (sections Samples.tea)) by now left.
  assert (Hd : section_data Samples.tea 0 4 <> []) by discriminate.
  exact (table_head_in_document Samples.tea "tea_survey.csv" 0 4
           ["Total"; "N=100"] [] eq_refl Hsec eq_refl Hd).
Defined.

End DocumentWitness.

Section SanitizeCut.

(** The cut at 200 characters comes after the strip: a name of 202
    characters whose character 200 is a dot keeps that dot at its end, and
    a second pass strips it. *)
Example sanitize_filename_cut_keeps_dot :
  let filename := repeat_str "a" 199 ++ ". b" in
  sanitize_filename filename = repeat_str "a" 199 ++ "."
  /\ sanitize_filename (sanitize_filename filename) = repeat_str "a" 199.
Proof. split; vm_compute; reflexivity. Qed.

End SanitizeCut.
